(** * Parthenon metrics app (scripts/python/app.py): tree model and GitHub client

    A shallow embedding of [class Node] and [class App] of
    scripts/python/app.py, and the properties of the specification that can
    be settled on it.

    Conventions of the embedding.
    - Python [str] values are Rocq strings (sequences of 8-bit characters);
      [str.lower] acts on the letters A-Z.
    - Mutable objects are threaded explicitly: a [Node] tree is rebuilt by
      [insert_at]; the client object, the process environment, the files on
      disk, the remote service and the standard output form a [World] that
      every method transforms.
    - A method is a function from the world to an outcome (a value or a
      raised exception) and the world it leaves behind; what was mutated
      before an exception was raised stays mutated. *)

From stdpp Require Import gmap strings list.
From Stdlib Require Import Ascii.
From Stdlib.Strings Require Byte.

Set Warnings "-register-all".
Local Open Scope Z_scope.

(* ===================================================================== *)
(** * Strings                                                              *)
(* ===================================================================== *)

(** [c.lower()] for one character: only A-Z change. *)
Definition lower_ascii (c : ascii) : ascii :=
  let n := N_of_ascii c in
  if ((65 <=? n) && (n <=? 90))%N then ascii_of_N (n + 32) else c.

(** [s.lower()] *)
Fixpoint lower (s : string) : string :=
  match s with
  | EmptyString => EmptyString
  | String c s' => String (lower_ascii c) (lower s')
  end.

(** [s.endswith(suffix)] for one suffix: [suffix] is [s] or the end of its
    tail. *)
Fixpoint endswith (s suffix : string) : bool :=
  String.eqb s suffix ||
  match s with
  | EmptyString => false
  | String _ s' => endswith s' suffix
  end.

(** [s.endswith((suf1, suf2, ...))] *)
Definition endswith_any (s : string) (suffixes : list string) : bool :=
  existsb (endswith s) suffixes.

(** [s.rindex(sub)] counted from position [i] of the whole string: the highest
    position at which [sub] starts, [None] where Python raises ValueError. *)
Fixpoint rindex_from (i : nat) (s sub : string) : option nat :=
  match s with
  | EmptyString => if String.prefix sub s then Some i else None
  | String _ s' =>
      match rindex_from (S i) s' sub with
      | Some j => Some j
      | None => if String.prefix sub s then Some i else None
      end
  end.

Definition rindex (s sub : string) : option nat := rindex_from 0 s sub.

(** ["/" in s] *)
Fixpoint has_slash (s : string) : bool :=
  match s with
  | EmptyString => false
  | String c s' => Ascii.eqb c "/" || has_slash s'
  end.

(** [s.rsplit('/', 1)[-1]]: what follows the last slash, the whole string
    when it has none. *)
Fixpoint after_last_slash (s : string) : string :=
  match s with
  | EmptyString => EmptyString
  | String c s' =>
      if has_slash s' then after_last_slash s'
      else if Ascii.eqb c "/" then s' else s
  end.

(* ===================================================================== *)
(** * Tree model: class Node                                               *)
(* ===================================================================== *)

(** The attributes of a [Node] object: [dir], [dirs], [files], [misc] and
    [rel_path]. *)
Inductive Node : Type :=
  mkNode { dir : string;
           dirs : list Node;
           files : list string;
           misc : list string;
           rel_path : string }.

(** [Node.__init__(dir_name = "", rel_path = "")] *)
Definition Node_init (dir_name rel : string) : Node :=
  {| dir := dir_name; dirs := []; files := []; misc := [];
     rel_path := rel +:+ dir_name |}.

(** [Node()] *)
Definition Node_default : Node := Node_init "" "".

Definition with_dirs (ds : list Node) (n : Node) : Node :=
  {| dir := dir n; dirs := ds; files := files n; misc := misc n;
     rel_path := rel_path n |}.

Definition with_files (fs : list string) (n : Node) : Node :=
  {| dir := dir n; dirs := dirs n; files := fs; misc := misc n;
     rel_path := rel_path n |}.

(** [Node.insert(content, content_type)]; the object after the call. *)
Definition insert (self : Node) (content content_type : string) : Node :=
  if String.eqb content_type "dir" then
    with_dirs (dirs self ++ [Node_init content (rel_path self +:+ "/")]) self
  else if String.eqb content_type "file" then
    with_files (files self ++ [content]) self
  else
    with_files (files self ++ [content]) self.

(** [Node.getNodes()] *)
Definition getNodes (self : Node) : list Node := dirs self.

(** [Node.getPath()] *)
Definition getPath (self : Node) : string := rel_path self.

(** [Node.printTree()]: the lines printed, in order. *)
Fixpoint printTree (self : Node) : list string :=
  ["Contents in folder: " +:+ rel_path self]
  ++ map (fun fil => "File " +:+ fil) (files self)
  ++ map (fun mis => "Misc " +:+ mis) (misc self)
  ++ (fix each (nodes : list Node) : list string :=
        match nodes with
        | [] => []
        | node :: rest => printTree node ++ each rest
        end) (dirs self).

(** A node inside a tree is addressed by the positions to follow through the
    successive [getNodes()] lists. [insert_at] is [insert] called on the node
    at that address, seen from the root (the objects are shared, so the root
    sees the change); an address that leads nowhere names no object and
    leaves the tree as it is. *)
Fixpoint insert_at (address : list nat) (content content_type : string)
    (root : Node) : Node :=
  match address with
  | [] => insert root content content_type
  | i :: rest =>
      match getNodes root !! i with
      | Some child =>
          with_dirs (<[i := insert_at rest content content_type child]> (dirs root)) root
      | None => root
      end
  end.

(** The node at an address together with the names of the nodes passed on
    the way, the root first. *)
Fixpoint descend (address : list nat) (root : Node) : option (list string * Node) :=
  match address with
  | [] => Some ([], root)
  | i :: rest =>
      match getNodes root !! i with
      | Some child =>
          match descend rest child with
          | Some (names, n) => Some (dir root :: names, n)
          | None => None
          end
      | None => None
      end
  end.

(** The trees a walk can build: [Node()] followed by any number of inserts,
    each at any node of the tree. *)
Inductive built : Node → Prop :=
  | built_root : built Node_default
  | built_insert root address content content_type :
      built root → built (insert_at address content content_type root).

(** Two small trees: a directory "b" inside a directory "a", and a root with
    a directory "a" and an entry "notes" of type "symlink". *)
Definition example_nested : Node :=
  insert_at [0%nat] "b" "dir" (insert_at [] "a" "dir" Node_default).

Definition example_symlink : Node :=
  insert_at [] "notes" "symlink" (insert_at [] "a" "dir" Node_default).

(** The depth of a tree, to reason on what [printTree] prints. *)
Fixpoint depth (n : Node) : nat :=
  S ((fix deepest (nodes : list Node) : nat :=
        match nodes with
        | [] => 0%nat
        | c :: rest => Nat.max (depth c) (deepest rest)
        end) (dirs n)).

(** Every child's path is its parent's path, a slash, and the child's name. *)
Fixpoint paths_ok (parent_path : string) (n : Node) : Prop :=
  rel_path n = parent_path +:+ dir n ∧
  (fix all (nodes : list Node) : Prop :=
     match nodes with
     | [] => True
     | c :: rest => paths_ok (rel_path n +:+ "/") c ∧ all rest
     end) (dirs n).

(** No node of the tree has anything in [misc]. *)
Fixpoint misc_free (n : Node) : Prop :=
  misc n = [] ∧
  (fix all (nodes : list Node) : Prop :=
     match nodes with
     | [] => True
     | c :: rest => misc_free c ∧ all rest
     end) (dirs n).

(* ===================================================================== *)
(** * Values, exceptions and the outside world                            *)
(* ===================================================================== *)

(** What [json.loads] returns and [json.dumps] takes: None, booleans,
    integers, strings, lists and dictionaries with string keys. *)
Inductive json : Type :=
  | JNull
  | JBool (b : bool)
  | JNum (n : Z)
  | JStr (s : string)
  | JList (items : list json)
  | JDict (fields : gmap string json).

(** The hashable values among them, as keys of a Python dictionary; [True]
    and [False] are the keys [1] and [0]. *)
Inductive pykey : Type :=
  | KNone
  | KInt (n : Z)
  | KStr (s : string).

#[global] Instance pykey_eq_dec : EqDecision pykey.
Proof. solve_decision. Defined.

#[global] Instance pykey_countable : Countable pykey :=
  inj_countable'
    (fun k => match k with
              | KNone => inl ()
              | KInt n => inr (inl n)
              | KStr s => inr (inr s)
              end)
    (fun x => match x with
              | inl _ => KNone
              | inr (inl n) => KInt n
              | inr (inr s) => KStr s
              end)
    (fun k => match k with KNone | KInt _ | KStr _ => eq_refl end).

(** The exceptions the client can raise or let through. [Exception msg] is
    the source's own [raise Exception(msg)]; the others come from the
    interpreter and the libraries. *)
Inductive exn : Type :=
  | Exception (msg : string)
  | KeyError (key : string)
  | IndexError
  | TypeError
  | ValueError
  | AttributeError
  | NameError (name : string)
  | FileNotFoundError (path : string)
  | JSONDecodeError
  | PycurlError
  | LibraryError (msg : string).

Inductive outcome (A : Type) : Type :=
  | Returned (a : A)
  | Raised (e : exn).

Arguments Returned {A} a.
Arguments Raised {A} e.

(** A value that comes from the command line: itself, or the list argparse
    makes of it ([isinstance(x, list)]). *)
Inductive arg (A : Type) : Type :=
  | One (a : A)
  | Many (l : list A).

Arguments One {A} a.
Arguments Many {A} l.

(** One pycurl transfer: [URL], the method ([POST] and [UPLOAD] options; GET
    without them), [HTTPHEADER], what [READDATA] and [POSTFIELDS] hold, and
    [VERBOSE]. The body given to [READDATA] is kept as the dictionary that
    [json.dumps] serialises. *)
Inductive verb : Type := GET | POST | PUT.

Record request : Type := {
  url : string;
  method : verb;
  httpheader : list string;
  readdata : option json;
  postfields : option string;
  verbose : bool }.

(** What comes back: a body that [json.loads] parses, a body that it does
    not, or no answer at all ([perform] raises). *)
Inductive reply : Type :=
  | Body (j : json)
  | NotJson
  | NoAnswer.

(** A line on standard output: text, or a JSON value pretty-printed. *)
Inductive output : Type :=
  | Text (s : string)
  | Pretty (j : json).

(** Library functions the client calls and the place the script is installed
    at. [jwt_encode iat exp iss key] is
    [jwt.encode(payload, key, algorithm='RS256').decode("utf-8")], the key
    being [None] or a string; [pem_parse] gives [str(c)] for each object [c]
    that [pem.parse_file] finds in a file's bytes. *)
Class Platform : Type := {
  os_path_normpath : string → string;
  os_path_basename : string → string;
  base64_b64encode : list Byte.byte → string;
  jwt_encode : Z → Z → string → option string → outcome string;
  pem_parse : list Byte.byte → list string;
  file_parent : string;
  file_realpath : string }.

(* ===================================================================== *)
(** * Repository client: class App                                         *)
(* ===================================================================== *)

(** The attributes of an [App] object. [__init__] assigns the first four, 
    [initialize] the others; an attribute that has not been assigned yet
    does not exist in Python and holds a placeholder here. *)
Record App : Type := mkApp {
  __app_id : string;
  __name : string;
  __user : string;
  __repo_name : string;
  __ignore : bool;
  __use_wiki : bool;
  __repo_url : string;
  __create_branch : bool;
  __default_branch : string;
  __default_image_branch : string;
  __branches : list json;
  __branch_current_commit_sha : gmap pykey json;
  __api_version : string;
  __parth_root : Node;
  __parthenon_home : string;
  __parthenon_wiki_dir : string;
  __jwt_token : string;
  __install_id : string;
  __access_token : json;
  __header : list string }.

Definition set__ignore (v : bool) (a : App) : App :=
  mkApp (__app_id a) (__name a) (__user a) (__repo_name a) v (__use_wiki a)
    (__repo_url a) (__create_branch a) (__default_branch a)
    (__default_image_branch a) (__branches a) (__branch_current_commit_sha a)
    (__api_version a) (__parth_root a) (__parthenon_home a)
    (__parthenon_wiki_dir a) (__jwt_token a) (__install_id a) (__access_token a)
    (__header a).

Definition set__use_wiki (v : bool) (a : App) : App :=
  mkApp (__app_id a) (__name a) (__user a) (__repo_name a) (__ignore a) v
    (__repo_url a) (__create_branch a) (__default_branch a)
    (__default_image_branch a) (__branches a) (__branch_current_commit_sha a)
    (__api_version a) (__parth_root a) (__parthenon_home a)
    (__parthenon_wiki_dir a) (__jwt_token a) (__install_id a) (__access_token a)
    (__header a).

Definition set__repo_url (v : string) (a : App) : App :=
  mkApp (__app_id a) (__name a) (__user a) (__repo_name a) (__ignore a)
    (__use_wiki a) v (__create_branch a) (__default_branch a)
    (__default_image_branch a) (__branches a) (__branch_current_commit_sha a)
    (__api_version a) (__parth_root a) (__parthenon_home a)
    (__parthenon_wiki_dir a) (__jwt_token a) (__install_id a) (__access_token a)
    (__header a).

Definition set__create_branch (v : bool) (a : App) : App :=
  mkApp (__app_id a) (__name a) (__user a) (__repo_name a) (__ignore a)
    (__use_wiki a) (__repo_url a) v (__default_branch a) (__default_image_branch
    a) (__branches a) (__branch_current_commit_sha a) (__api_version a)
    (__parth_root a) (__parthenon_home a) (__parthenon_wiki_dir a) (__jwt_token
    a) (__install_id a) (__access_token a) (__header a).

Definition set__default_branch (v : string) (a : App) : App :=
  mkApp (__app_id a) (__name a) (__user a) (__repo_name a) (__ignore a)
    (__use_wiki a) (__repo_url a) (__create_branch a) v (__default_image_branch
    a) (__branches a) (__branch_current_commit_sha a) (__api_version a)
    (__parth_root a) (__parthenon_home a) (__parthenon_wiki_dir a) (__jwt_token
    a) (__install_id a) (__access_token a) (__header a).

Definition set__default_image_branch (v : string) (a : App) : App :=
  mkApp (__app_id a) (__name a) (__user a) (__repo_name a) (__ignore a)
    (__use_wiki a) (__repo_url a) (__create_branch a) (__default_branch a) v
    (__branches a) (__branch_current_commit_sha a) (__api_version a)
    (__parth_root a) (__parthenon_home a) (__parthenon_wiki_dir a) (__jwt_token
    a) (__install_id a) (__access_token a) (__header a).

Definition set__branches (v : list json) (a : App) : App :=
  mkApp (__app_id a) (__name a) (__user a) (__repo_name a) (__ignore a)
    (__use_wiki a) (__repo_url a) (__create_branch a) (__default_branch a)
    (__default_image_branch a) v (__branch_current_commit_sha a) (__api_version
    a) (__parth_root a) (__parthenon_home a) (__parthenon_wiki_dir a)
    (__jwt_token a) (__install_id a) (__access_token a) (__header a).

Definition set__branch_current_commit_sha (v : gmap pykey json) (a : App) : App :=
  mkApp (__app_id a) (__name a) (__user a) (__repo_name a) (__ignore a)
    (__use_wiki a) (__repo_url a) (__create_branch a) (__default_branch a)
    (__default_image_branch a) (__branches a) v (__api_version a) (__parth_root
    a) (__parthenon_home a) (__parthenon_wiki_dir a) (__jwt_token a)
    (__install_id a) (__access_token a) (__header a).

Definition set__api_version (v : string) (a : App) : App :=
  mkApp (__app_id a) (__name a) (__user a) (__repo_name a) (__ignore a)
    (__use_wiki a) (__repo_url a) (__create_branch a) (__default_branch a)
    (__default_image_branch a) (__branches a) (__branch_current_commit_sha a) v
    (__parth_root a) (__parthenon_home a) (__parthenon_wiki_dir a) (__jwt_token
    a) (__install_id a) (__access_token a) (__header a).

Definition set__parth_root (v : Node) (a : App) : App :=
  mkApp (__app_id a) (__name a) (__user a) (__repo_name a) (__ignore a)
    (__use_wiki a) (__repo_url a) (__create_branch a) (__default_branch a)
    (__default_image_branch a) (__branches a) (__branch_current_commit_sha a)
    (__api_version a) v (__parthenon_home a) (__parthenon_wiki_dir a)
    (__jwt_token a) (__install_id a) (__access_token a) (__header a).

Definition set__parthenon_home (v : string) (a : App) : App :=
  mkApp (__app_id a) (__name a) (__user a) (__repo_name a) (__ignore a)
    (__use_wiki a) (__repo_url a) (__create_branch a) (__default_branch a)
    (__default_image_branch a) (__branches a) (__branch_current_commit_sha a)
    (__api_version a) (__parth_root a) v (__parthenon_wiki_dir a) (__jwt_token
    a) (__install_id a) (__access_token a) (__header a).

Definition set__parthenon_wiki_dir (v : string) (a : App) : App :=
  mkApp (__app_id a) (__name a) (__user a) (__repo_name a) (__ignore a)
    (__use_wiki a) (__repo_url a) (__create_branch a) (__default_branch a)
    (__default_image_branch a) (__branches a) (__branch_current_commit_sha a)
    (__api_version a) (__parth_root a) (__parthenon_home a) v (__jwt_token a)
    (__install_id a) (__access_token a) (__header a).

Definition set__jwt_token (v : string) (a : App) : App :=
  mkApp (__app_id a) (__name a) (__user a) (__repo_name a) (__ignore a)
    (__use_wiki a) (__repo_url a) (__create_branch a) (__default_branch a)
    (__default_image_branch a) (__branches a) (__branch_current_commit_sha a)
    (__api_version a) (__parth_root a) (__parthenon_home a)
    (__parthenon_wiki_dir a) v (__install_id a) (__access_token a) (__header a).

Definition set__install_id (v : string) (a : App) : App :=
  mkApp (__app_id a) (__name a) (__user a) (__repo_name a) (__ignore a)
    (__use_wiki a) (__repo_url a) (__create_branch a) (__default_branch a)
    (__default_image_branch a) (__branches a) (__branch_current_commit_sha a)
    (__api_version a) (__parth_root a) (__parthenon_home a)
    (__parthenon_wiki_dir a) (__jwt_token a) v (__access_token a) (__header a).

Definition set__access_token (v : json) (a : App) : App :=
  mkApp (__app_id a) (__name a) (__user a) (__repo_name a) (__ignore a)
    (__use_wiki a) (__repo_url a) (__create_branch a) (__default_branch a)
    (__default_image_branch a) (__branches a) (__branch_current_commit_sha a)
    (__api_version a) (__parth_root a) (__parthenon_home a)
    (__parthenon_wiki_dir a) (__jwt_token a) (__install_id a) v (__header a).

Definition set__header (v : list string) (a : App) : App :=
  mkApp (__app_id a) (__name a) (__user a) (__repo_name a) (__ignore a)
    (__use_wiki a) (__repo_url a) (__create_branch a) (__default_branch a)
    (__default_image_branch a) (__branches a) (__branch_current_commit_sha a)
    (__api_version a) (__parth_root a) (__parthenon_home a)
    (__parthenon_wiki_dir a) (__jwt_token a) (__install_id a) (__access_token a)
    v.

(** [App.__init__(id, name, user, repo_name)] *)
Definition App_init (id name user repo_name : string) : App :=
  {| __app_id := id; __name := name; __user := user; __repo_name := repo_name;
     __ignore := false; __use_wiki := false; __repo_url := "";
     __create_branch := false; __default_branch := "";
     __default_image_branch := ""; __branches := [];
     __branch_current_commit_sha := ∅; __api_version := "";
     __parth_root := Node_default; __parthenon_home := "";
     __parthenon_wiki_dir := ""; __jwt_token := ""; __install_id := "";
     __access_token := JNull; __header := [] |}.

(** Everything a method can read or change: the client object, [os.environ],
    the files on disk, the remote service (its answer to a request given all
    requests sent so far, that one last), the requests sent, standard output,
    and the clock ([utc n] is what the [n]-th call of [datetime.utcnow]
    returns, in seconds). *)
Record World : Type := mkWorld {
  self : App;
  environ : gmap string string;
  disk : gmap string (list Byte.byte);
  github : list request → reply;
  sent : list request;
  stdout : list output;
  utc : nat → Z;
  clock_reads : nat }.

Definition set_self (a : App) (w : World) : World :=
  mkWorld a (environ w) (disk w) (github w) (sent w) (stdout w) (utc w)
    (clock_reads w).

Definition set_sent (l : list request) (w : World) : World :=
  mkWorld (self w) (environ w) (disk w) (github w) l (stdout w) (utc w)
    (clock_reads w).

Definition set_stdout (l : list output) (w : World) : World :=
  mkWorld (self w) (environ w) (disk w) (github w) (sent w) l (utc w)
    (clock_reads w).

Definition set_clock_reads (n : nat) (w : World) : World :=
  mkWorld (self w) (environ w) (disk w) (github w) (sent w) (stdout w) (utc w)
    n.

(** A method body: from the world to an outcome and the world left behind. *)
Definition M (A : Type) : Type := World → outcome A * World.

#[global] Instance M_ret : MRet M := fun A a w => (Returned a, w).

#[global] Instance M_bind : MBind M := fun A B k m w =>
  match m w with
  | (Returned a, w') => k a w'
  | (Raised e, w') => (Raised e, w')
  end.

(** [return a] *)
Definition return_ {A : Type} (a : A) : M A := mret a.

Definition raise {A : Type} (e : exn) : M A := fun w => (Raised e, w).

Definition lift {A : Type} (o : outcome A) : M A := fun w => (o, w).

Definition get_world : M World := fun w => (Returned w, w).

Definition get_self : M App := fun w => (Returned (self w), w).

(** [self.attr = v], [setter] being the assignment to [attr]. *)
Definition assign {V : Type} (setter : V → App → App) (v : V) : M unit :=
  fun w => (Returned (), set_self (setter v (self w)) w).

(** [print(s)] and [pprint.pprint(json.dumps(j, indent=2))] *)
Definition print (s : string) : M unit :=
  fun w => (Returned (), set_stdout (stdout w ++ [Text s]) w).

Definition pprint (j : json) : M unit :=
  fun w => (Returned (), set_stdout (stdout w ++ [Pretty j]) w).

(** [datetime.datetime.utcnow()] *)
Definition utcnow : M Z :=
  fun w => (Returned (utc w (clock_reads w)), set_clock_reads (S (clock_reads w)) w).

(** [c.perform()]: the request goes out; no answer raises [pycurl.error]. *)
Definition perform (r : request) : M reply :=
  fun w =>
    let w' := set_sent (sent w ++ [r]) w in
    match github w (sent w') with
    | NoAnswer => (Raised PycurlError, w')
    | answer => (Returned answer, w')
    end.

(** [json.loads(buffer.getvalue())] *)
Definition json_loads (answer : reply) : M json :=
  match answer with
  | Body j => return_ j
  | _ => raise JSONDecodeError
  end.

(** [os.environ.get(name)] and [os.getenv(name)] *)
Definition os_getenv (name : string) : M (option string) :=
  fun w => (Returned (environ w !! name), w).

(** [os.path.exists(path)] *)
Definition os_path_exists (path : string) : M bool :=
  fun w => (Returned (bool_decide (is_Some (disk w !! path))), w).

(** [open(path, "rb").read()] *)
Definition read_file (path : string) : M (list Byte.byte) :=
  fun w =>
    match disk w !! path with
    | Some data => (Returned data, w)
    | None => (Raised (FileNotFoundError path), w)
    end.

(** [x[0]] on a list *)
Definition first {A : Type} (l : list A) : M A :=
  match l with
  | x :: _ => return_ x
  | [] => raise IndexError
  end.

(** [x[0] if isinstance(x, list) else x] *)
Definition unwrapped {A : Type} (x : arg A) : outcome A :=
  match x with
  | Many (a :: _) => Returned a
  | Many [] => Raised IndexError
  | One a => Returned a
  end.

Definition unwrap {A : Type} (x : arg A) : M A := lift (unwrapped x).

(** [j[key]] for a string [key]: only a dictionary can be subscripted by a
    string. *)
Definition getitem (j : json) (key : string) : M json :=
  match j with
  | JDict fields =>
      match fields !! key with
      | Some v => return_ v
      | None => raise (KeyError key)
      end
  | _ => raise TypeError
  end.

(** [j[0] if isinstance(j, list) else j] *)
Definition first_if_list (j : json) : M json :=
  match j with
  | JList items => first items
  | _ => return_ j
  end.

(** The key a value makes in a dictionary; lists and dictionaries are not
    hashable. *)
Definition hash_key (j : json) : M pykey :=
  match j with
  | JNull => return_ KNone
  | JBool b => return_ (KInt (if b then 1 else 0))
  | JNum n => return_ (KInt n)
  | JStr s => return_ (KStr s)
  | JList _ | JDict _ => raise TypeError
  end.

(** What [for x in j] goes through: the items of a list, the keys of a
    dictionary, the characters of a string. *)
Definition iterate (j : json) : M (list json) :=
  match j with
  | JList items => return_ items
  | JDict fields => return_ ((fun kv => JStr (fst kv)) <$> map_to_list fields)
  | JStr s => return_ ((fun c => JStr (String c "")) <$> String.list_ascii_of_string s)
  | JNull | JBool _ | JNum _ => raise TypeError
  end.

(** [for x in items: body(x)] *)
Fixpoint for_each {A : Type} (items : list A) (body : A → M unit) : M unit :=
  match items with
  | [] => return_ ()
  | x :: rest => body x;; for_each rest body
  end.

(** [s == j] for a string [s] *)
Definition str_eq (s : string) (j : json) : bool :=
  match j with
  | JStr t => String.eqb s t
  | _ => false
  end.

(** [s in l] for a string [s] and a list [l] *)
Definition str_in (s : string) (l : list json) : bool := existsb (str_eq s) l.

(* --------------------------------------------------------------------- *)
(** ** Internal private methods                                            *)
(* --------------------------------------------------------------------- *)

Section Client.
Context `{Platform}.

(** [pem.parse_file(path)], each object as [str] gives it. *)
Definition pem_parse_file (path : string) : M (list string) :=
  data ← read_file path;
  return_ (pem_parse data).

(** [App.__generateJWT(pem_file)]. [PEM] is [None] when the environment
    variable is not set; [None == ""] is false. The message of the exception
    is the first of the two string literals only: the second one is a
    statement of its own. *)
Definition __generateJWT (pem_file : string) : M unit :=
  a ← get_self;
  iat ← utcnow;
  now ← utcnow;
  let exp := now + 60 in
  PEM ← (if String.eqb pem_file "" then
           os_getenv "PARTHENON_METRICS_APP_PEM"
         else
           certs ← pem_parse_file pem_file;
           cert ← first certs;
           return_ (Some cert));
  if bool_decide (PEM = Some "") then
    raise (Exception
      "No permissions enabled for parthenon metrics app, either a pem file needs to ")
  else
    token ← lift (jwt_encode iat exp (__app_id a) PEM);
    assign set__jwt_token token.

(** [App.__generateInstallationId()] *)
Definition __generateInstallationId : M unit :=
  a ← get_self;
  let header := ["Authorization: Bearer " +:+ __jwt_token a;
                 "Accept: " +:+ __api_version a] in
  answer ← perform {| url := "https://api.github.com/app/installations";
                      method := GET; httpheader := header; readdata := None;
                      postfields := None; verbose := false |};
  js_obj ← json_loads answer;
  js_obj ← first_if_list js_obj;
  html_url ← getitem js_obj "html_url";
  match html_url : json with
  | JStr s => assign set__install_id (after_last_slash s)
  | _ => raise AttributeError
  end.

(** [App.__generateAccessToken()] *)
Definition __generateAccessToken : M unit :=
  a ← get_self;
  let header := ["Authorization: Bearer " +:+ __jwt_token a;
                 "Accept: " +:+ __api_version a] in
  let https_url_access_tokens :=
    "https://api.github.com/app/installations/" +:+ __install_id a
      +:+ "/access_tokens" in
  answer ← perform {| url := https_url_access_tokens; method := POST;
                      httpheader := header; readdata := None;
                      postfields := Some ""; verbose := true |};
  js_obj ← json_loads answer;
  js_obj ← first_if_list js_obj;
  token ← getitem js_obj "token";
  assign set__access_token token;;
  match token : json with
  | JStr t => assign set__header ["Authorization: token " +:+ t;
                                  "Accept: " +:+ __api_version a]
  | _ => raise TypeError
  end.

(** [App.initialize(use_wiki, ignore, pem_file, create_branch)] *)
Definition initialize (use_wiki ignore : bool) (pem_file : arg string)
    (create_branch : arg bool) : M unit :=
  a ← get_self;
  assign set__ignore ignore;;
  assign set__use_wiki use_wiki;;
  assign set__repo_url
    ("https://api.github.com/repos/" +:+ __user a +:+ "/" +:+ __repo_name a);;
  create ← unwrap create_branch;
  assign set__create_branch create;;
  assign set__default_branch "develop";;
  assign set__default_image_branch "figures";;
  assign set__branches [];;
  assign set__branch_current_commit_sha ∅;;
  assign set__api_version "application/vnd.github.v3+json";;
  assign set__parth_root Node_default;;
  assign set__parthenon_home file_parent;;
  match rindex file_parent (__repo_name a) with
  | Some i =>
      assign set__parthenon_home
        (String.substring 0 (i + String.length ("/" +:+ __repo_name a))%nat
           file_parent)
  | None =>
      print (file_realpath +:+ " must be run from within the "
               +:+ __repo_name a +:+ " repository.");;
      raise ValueError
  end;;
  a ← get_self;
  assign set__parthenon_wiki_dir
    (os_path_normpath
       (__parthenon_home a +:+ "/../" +:+ __repo_name a +:+ ".wiki"));;
  pem_file ← unwrap pem_file;
  __generateJWT pem_file;;
  __generateInstallationId;;
  __generateAccessToken.

(** The body of the loop of [__getBranches]. *)
Definition __getBranches_body (js_obj : json) : M unit :=
  name ← getitem js_obj "name";
  a ← get_self;
  assign set__branches (__branches a ++ [name]);;
  name ← getitem js_obj "name";
  commit ← getitem js_obj "commit";
  sha ← getitem commit "sha";
  key ← hash_key name;
  a ← get_self;
  assign set__branch_current_commit_sha
    (<[key := sha]> (__branch_current_commit_sha a)).

(** [App.__getBranches()]: the live query. *)
Definition __getBranches : M unit :=
  a ← get_self;
  answer ← perform {| url := __repo_url a +:+ "/branches"; method := GET;
                      httpheader := __header a; readdata := None;
                      postfields := None; verbose := false |};
  js_obj_list ← json_loads answer;
  assign set__branches [];;
  assign set__branch_current_commit_sha ∅;;
  items ← iterate js_obj_list;
  for_each items __getBranches_body.

(* --------------------------------------------------------------------- *)
(** ** Public methods                                                      *)
(* --------------------------------------------------------------------- *)

(** [App.getBranches()] *)
Definition getBranches : M (list json) :=
  a ← get_self;
  match __branches a with
  | [] => __getBranches
  | _ :: _ => return_ ()
  end;;
  a ← get_self;
  return_ (__branches a).

(** [App.branchExist(branch)] *)
Definition branchExist (branch : string) : M bool :=
  branches ← getBranches;
  if str_in branch branches then return_ true else return_ false.

(** [App.refreshBranchCache()] *)
Definition refreshBranchCache : M unit := __getBranches.

(** [App.createBranch(branch, branch_to_fork_from = None)] *)
Definition createBranch (branch : string) (branch_to_fork_from : option string) :
    M unit :=
  a ← get_self;
  let branch_to_fork_from := default (__default_branch a) branch_to_fork_from in
  present ← branchExist branch;
  if present : bool then return_ () else
  fork_present ← branchExist branch_to_fork_from;
  if negb fork_present then
    raise (Exception
      ("Cannot create new branch: " +:+ branch +:+ " from "
         +:+ branch_to_fork_from +:+ " because " +:+ branch_to_fork_from
         +:+ " does not exist."))
  else
    a ← get_self;
    sha ← match __branch_current_commit_sha a !! KStr branch_to_fork_from with
          | Some sha => return_ sha
          | None => raise (KeyError branch_to_fork_from)
          end;
    let custom_data :=
      JDict {[ "ref" := JStr ("refs/heads/" +:+ branch); "sha" := sha ]} in
    perform {| url := __repo_url a +:+ "/git/refs"; method := POST;
               httpheader := __header a; readdata := Some custom_data;
               postfields := None; verbose := false |};;
    return_ ().

(** The loop of [getContents]: [contents[obj['name']] = obj['sha']], the
    right-hand side first. *)
Fixpoint getContents_loop (js_obj : list json) (contents : gmap pykey json) :
    M (gmap pykey json) :=
  match js_obj with
  | [] => return_ contents
  | obj :: rest =>
      sha ← getitem obj "sha";
      name ← getitem obj "name";
      key ← hash_key name;
      getContents_loop rest (<[key := sha]> contents)
  end.

(** [App.getContents(branch = None)] *)
Definition getContents (branch : option string) : M (gmap pykey json) :=
  a ← get_self;
  let branch := default (__default_branch a) branch in
  let custom_data := JDict {[ "branch" := JStr branch ]} in
  answer ← perform {| url := __repo_url a +:+ "/contents?ref=" +:+ branch;
                      method := GET; httpheader := __header a;
                      readdata := Some custom_data; postfields := None;
                      verbose := false |};
  js_obj ← json_loads answer;
  match js_obj : json with
  | JList items => getContents_loop items ∅
  | _ => return_ ∅
  end.

(** [App.getWikiRepo(branch)]: its first statement calls [cloneWikiRepo] on
    the name [slef], which is not defined, so the method raises NameError
    and returns no repository handle. *)
Definition getWikiRepo (branch : string) : M Empty_set :=
  raise (NameError "slef").

(** The file-name suffixes [upload] takes for images. *)
Definition image_suffixes : list string :=
  [".png"; ".jpg"; ".jpeg"; ".tiff"; ".bmp"; ".gif"].

(** [upload], the image override (the [if] on [file_name.lower().endswith]):
    the branch the upload goes to. *)
Definition upload_image_override (file_name branch : string) : M string :=
  a ← get_self;
  if endswith_any (lower file_name) image_suffixes then
    if negb (String.eqb branch (__default_image_branch a)) && negb (__ignore a)
    then
      print ("Note all images will be uploaded to a branch named: "
               +:+ __default_image_branch a +:+ " in the main repository.");;
      print "Unless the ignore flag is used.";;
      assign set__use_wiki false;;
      return_ (__default_image_branch a)
    else return_ branch
  else return_ branch.

(** The world after the image override has redirected an upload: the two
    lines of the note are printed and [__use_wiki] is off. *)
Definition image_redirected (w : World) : World :=
  set_self (set__use_wiki false (self w))
    (set_stdout
       (stdout w ++
          [Text ("Note all images will be uploaded to a branch named: "
                   +:+ __default_image_branch (self w)
                   +:+ " in the main repository.");
           Text "Unless the ignore flag is used."])
       w).

(** [upload], the wiki case. Copying, staging, committing and pushing need the
    handle that [getWikiRepo] never returns. *)
Definition upload_wiki (file_name branch : string) : M unit :=
  a ← get_self;
  if negb (String.eqb branch "master") then
    print "Files can only be uploaded to the wiki repositories master branch"
  else
    found ← os_path_exists
      (__parthenon_wiki_dir a +:+ "/"
         +:+ os_path_basename (os_path_normpath file_name));
    let commit_msg :=
      if found : bool then "Updating file " +:+ file_name
      else "Adding file " +:+ file_name in
    repo ← getWikiRepo branch;
    match repo : Empty_set with end.

(** The dictionary [upload] sends: with the sha of the file when the branch
    has it, without when it does not. *)
Definition upload_custom_data (a : App) (file_name branch : string)
    (contents : gmap pykey json) (encoded_file : string) : gmap string json :=
  match contents !! KStr file_name with
  | Some sha =>
      {[ "message" := JStr (__name a +:+ " overwriting file " +:+ file_name);
         "name" := JStr (__name a);
         "branch" := JStr branch;
         "sha" := sha;
         "content" := JStr encoded_file ]}
  | None =>
      {[ "message" := JStr (__name a +:+ " uploading file " +:+ file_name);
         "name" := JStr (__name a);
         "content" := JStr encoded_file;
         "branch" := JStr branch ]}
  end.

(** [upload], the repository case. *)
Definition upload_repo (file_name branch : string) : M unit :=
  a ← get_self;
  (if __create_branch a then createBranch branch None
   else
     present ← branchExist branch;
     if negb present then
       raise (Exception
         ("branch: " +:+ branch +:+ " does not exist in repository."))
     else return_ ());;
  contents ← getContents (Some branch);
  data ← read_file file_name;
  let encoded_file := base64_b64encode data in
  a ← get_self;
  let custom_data := upload_custom_data a file_name branch contents encoded_file in
  let https_url_to_file := __repo_url a +:+ "/contents/" +:+ file_name in
  perform {| url := https_url_to_file; method := PUT;
             httpheader := __header a; readdata := Some (JDict custom_data);
             postfields := None; verbose := true |};;
  return_ ().

(** [App.upload(file_name, branch = None, use_wiki = False)] *)
Definition upload (file_name : arg string) (branch : option string)
    (use_wiki : bool) : M unit :=
  file_name ← unwrap file_name;
  a ← get_self;
  let branch := default (__default_branch a) branch in
  branch ← upload_image_override file_name branch;
  a ← get_self;
  if __use_wiki a || use_wiki then upload_wiki file_name branch
  else upload_repo file_name branch.

(** [App.postStatus(state, commit_sha = None)] *)
Definition postStatus (state : string) (commit_sha : option string) : M unit :=
  let state_list := ["pending"; "failed"; "error"; "success"] in
  if negb (bool_decide (state ∈ state_list)) then
    raise (Exception ("Unrecognized state specified " +:+ state))
  else
    commit_sha ← match commit_sha with
                 | None => os_getenv "CI_COMMIT_SHA"
                 | Some _ => return_ commit_sha
                 end;
    match commit_sha : option string with
    | None =>
        raise (Exception
          "CI_COMMIT_SHA not defined in environment cannot post status")
    | Some commit_sha =>
        a ← get_self;
        let custom_data :=
          JDict {[ "state" := JStr state;
                   "context" := JStr (__name a
                                        +:+ " handles the performance metrics.") ]} in
        answer ← perform {| url := __repo_url a +:+ "/statuses/" +:+ commit_sha;
                            method := POST; httpheader := __header a;
                            readdata := Some custom_data; postfields := None;
                            verbose := false |};
        js_obj ← json_loads answer;
        pprint js_obj
    end.

(** [App.getStatus()] *)
Definition getStatus : M json :=
  commit_sha ← os_getenv "CI_COMMIT_SHA";
  match commit_sha : option string with
  | None =>
      raise (Exception
        "CI_COMMIT_SHA not defined in environment cannot post status")
  | Some _ =>
      a ← get_self;
      answer ← perform {| url := __repo_url a +:+ "/commits/Add_to_dev/statuses";
                          method := GET; httpheader := __header a;
                          readdata := None; postfields := None;
                          verbose := false |};
      js_obj ← json_loads answer;
      return_ js_obj
  end.

End Client.

(** Steps that leave the world as it is, and steps that send nothing. *)
Definition pure {A : Type} (m : M A) : Prop := ∀ w, snd (m w) = w.

Definition silent {A : Type} (m : M A) : Prop := ∀ w, sent (snd (m w)) = sent w.

(* ===================================================================== *)
(** * A concrete platform and concrete worlds                             *)
(* ===================================================================== *)

(** Standard base64 with padding, for [base64.b64encode]. *)
Definition b64_digit (n : N) : ascii :=
  default "="%char
    (String.get (N.to_nat n)
       "ABCDEFGHIJKLMNOPQRSTUVWXYZabcdefghijklmnopqrstuvwxyz0123456789+/").

Fixpoint b64encode (data : list Byte.byte) : string :=
  match data with
  | [] => ""
  | [x] =>
      let n := Byte.to_N x in
      String (b64_digit (N.shiftr n 2))
        (String (b64_digit (N.shiftl (N.land n 3) 4)) "==")
  | [x; y] =>
      let n := Byte.to_N x in
      let m := Byte.to_N y in
      String (b64_digit (N.shiftr n 2))
        (String (b64_digit (N.lor (N.shiftl (N.land n 3) 4) (N.shiftr m 4)))
           (String (b64_digit (N.shiftl (N.land m 15) 2)) "="))
  | x :: y :: z :: rest =>
      let n := Byte.to_N x in
      let m := Byte.to_N y in
      let k := Byte.to_N z in
      String (b64_digit (N.shiftr n 2))
        (String (b64_digit (N.lor (N.shiftl (N.land n 3) 4) (N.shiftr m 4)))
           (String (b64_digit (N.lor (N.shiftl (N.land m 15) 2) (N.shiftr k 6)))
              (String (b64_digit (N.land k 63)) (b64encode rest))))
  end.

(** A platform to run examples on: paths are taken as already normal, the
    signer rejects a key that is not a string with a TypeError and otherwise
    returns a fixed token, a non-empty file holds one PEM object, and the
    script sits in a checkout of the repository. *)
Definition example_platform : Platform :=
  {| os_path_normpath := fun path => path;
     os_path_basename := after_last_slash;
     base64_b64encode := b64encode;
     jwt_encode := fun iat exp iss key =>
       match key with
       | Some _ => Returned "header.payload.signature"
       | None => Raised TypeError
       end;
     pem_parse := fun data =>
       match data with
       | [] => []
       | _ :: _ => [String.string_of_list_byte data]
       end;
     file_parent := "/ci/parthenon/scripts/python";
     file_realpath := "/ci/parthenon/scripts/python/app.py" |}.

(** A remote repository with the branches develop and figures; develop holds
    chart.png and README.md, figures is empty. It answers by the URL of the
    request. *)
Definition example_branch (name sha : string) : json :=
  JDict {[ "name" := JStr name; "commit" := JDict {[ "sha" := JStr sha ]} ]}.

Definition example_entry (name sha : string) : json :=
  JDict {[ "name" := JStr name; "sha" := JStr sha ]}.

Definition example_github (requests : list request) : reply :=
  match last requests with
  | None => NoAnswer
  | Some r =>
      let base := "https://api.github.com/repos/lanl/parthenon" in
      if String.eqb (url r) "https://api.github.com/app/installations" then
        Body (JList [JDict {[ "html_url" :=
          JStr "https://github.com/organizations/lanl/settings/installations/42" ]}])
      else if String.eqb (url r)
                "https://api.github.com/app/installations/42/access_tokens" then
        Body (JDict {[ "token" := JStr "v1.token" ]})
      else if String.eqb (url r) (base +:+ "/branches") then
        Body (JList [example_branch "develop" "c0ffee";
                     example_branch "figures" "f19"])
      else if String.eqb (url r) (base +:+ "/contents?ref=develop") then
        Body (JList [example_entry "chart.png" "a1";
                     example_entry "README.md" "b2"])
      else if String.eqb (url r) (base +:+ "/contents?ref=figures") then
        Body (JList [])
      else Body (JDict ∅)
  end.

(** The process before [initialize]: a key file and two files to upload on
    disk, no environment variable set. *)
Definition example_start : World :=
  {| self := App_init "7" "parthenon-metrics" "lanl" "parthenon";
     environ := ∅;
     disk := {[ "app.pem" := [Byte.x2d; Byte.x2d];
                "chart.png" := [Byte.x89; Byte.x50];
                "README.md" := [Byte.x68; Byte.x69; Byte.x0a] ]};
     github := example_github;
     sent := [];
     stdout := [];
     utc := fun _ => 1600000000;
     clock_reads := 0 |}.

(** The world after [initialize(pem_file = "app.pem")]: the cache of
    branches is empty. *)
Definition example_ready : World :=
  snd (initialize (H := example_platform) false false (One "app.pem") (One false)
         example_start).

(** The same after a first [getBranches()]: the cache is filled. *)
Definition example_cached : World := snd (getBranches example_ready).

(* ===================================================================== *)
(** * Definitions for the further properties                              *)
(* ===================================================================== *)

(** What a step leaves as it was, seen through an observation of the world. *)
Definition preserves {X A : Type} (obs : World → X) (m : M A) : Prop :=
  ∀ w, obs (snd (m w)) = obs w.

(** What no method changes once [initialize] is done: the identity of the
    application, its settings and credentials, the tree, the environment, the
    files on disk and the clock. *)
Definition fixed_part (w : World) :=
  let a := self w in
  (__app_id a, __name a, __user a, __repo_name a, __ignore a, __repo_url a,
   __create_branch a, __default_branch a, __default_image_branch a,
   __api_version a, __parth_root a, __parthenon_home a,
   __parthenon_wiki_dir a, __jwt_token a, __install_id a, __access_token a,
   __header a, environ w, disk w, clock_reads w).

(** The number of files, misc entries and directories below a node. *)
Fixpoint entries (n : Node) : nat :=
  (length (files n) + length (misc n) +
   (fix below (nodes : list Node) : nat :=
      match nodes with
      | [] => 0
      | c :: rest => S (entries c) + below rest
      end) (dirs n))%nat.

(** [sub] occurs in [s] at position [k]. *)
Definition occurs_at (k : nat) (sub s : string) : Prop :=
  ∃ pre post, s = pre +:+ sub +:+ post ∧ String.length pre = k.

(** The request of the live query of [__getBranches]. *)
Definition branches_request (a : App) : request :=
  {| url := __repo_url a +:+ "/branches"; method := GET;
     httpheader := __header a; readdata := None; postfields := None;
     verbose := false |}.

(** An entry of the listing of branches as [__getBranches] reads it: a
    dictionary with a string under "name" and, under "commit", a dictionary
    with a "sha". *)
Definition branch_object (entry : string * json) (j : json) : Prop :=
  ∃ fields commit,
    j = JDict fields
    ∧ fields !! "name" = Some (JStr (fst entry))
    ∧ fields !! "commit" = Some (JDict commit)
    ∧ commit !! "sha" = Some (snd entry).

(** The world with the cache of branches replaced. *)
Definition with_cache (branches : list json) (shas : gmap pykey json)
    (w : World) : World :=
  set_self (set__branch_current_commit_sha shas (set__branches branches (self w))) w.

(** The sha recorded for each name when a listing is read in order. *)
Definition record_shas (shas : gmap pykey json) (listing : list (string * json)) :
    gmap pykey json :=
  foldl (fun m entry => <[KStr (fst entry) := snd entry]> m) shas listing.

(** The client of [example_cached] facing a remote that answers every
    request with an error object. *)
Definition example_rejected : World :=
  {| self := self example_cached; environ := ∅; disk := ∅;
     github := fun _ => Body (JDict {[ "message" := JStr "Bad credentials" ]});
     sent := []; stdout := []; utc := fun _ => 0; clock_reads := 0 |}.

(** The request by which [createBranch] creates a ref. *)
Definition ref_request (a : App) (branch : string) (sha : json) : request :=
  {| url := __repo_url a +:+ "/git/refs"; method := POST;
     httpheader := __header a;
     readdata := Some (JDict {[ "ref" := JStr ("refs/heads/" +:+ branch);
                                "sha" := sha ]});
     postfields := None; verbose := false |}.

(** The request of [getContents]. *)
Definition contents_request (a : App) (branch : string) : request :=
  {| url := __repo_url a +:+ "/contents?ref=" +:+ branch; method := GET;
     httpheader := __header a;
     readdata := Some (JDict {[ "branch" := JStr branch ]});
     postfields := None; verbose := false |}.

(** An entry of a listing of contents as [getContents] reads it: a
    dictionary with a string under "name" and a value under "sha". *)
Definition contents_object (entry : string * json) (j : json) : Prop :=
  ∃ fields,
    j = JDict fields
    ∧ fields !! "name" = Some (JStr (fst entry))
    ∧ fields !! "sha" = Some (snd entry).

(** The mapping [getContents] builds when a listing is read in order. *)
Definition record_contents (contents : gmap pykey json)
    (listing : list (string * json)) : gmap pykey json :=
  foldl (fun m entry => <[KStr (fst entry) := snd entry]> m) contents listing.

(** The cache of [example_cached] without the branch figures. *)
Definition example_no_figures : World :=
  with_cache [JStr "develop"] {[ KStr "develop" := JStr "c0ffee" ]} example_cached.

(** The client of [example_cached] with the wiki default on. *)
Definition example_wiki : World :=
  set_self (set__use_wiki true (self example_cached)) example_cached.

(** The request of [getStatus] and the request of [postStatus]. *)
Definition status_request (a : App) : request :=
  {| url := __repo_url a +:+ "/commits/Add_to_dev/statuses"; method := GET;
     httpheader := __header a; readdata := None; postfields := None;
     verbose := false |}.

Definition post_status_request (a : App) (state commit_sha : string) : request :=
  {| url := __repo_url a +:+ "/statuses/" +:+ commit_sha; method := POST;
     httpheader := __header a;
     readdata := Some (JDict
       {[ "state" := JStr state;
          "context" := JStr (__name a +:+ " handles the performance metrics.") ]});
     postfields := None; verbose := false |}.

(** The request of [__generateInstallationId]. *)
Definition installations_request (a : App) : request :=
  {| url := "https://api.github.com/app/installations"; method := GET;
     httpheader := ["Authorization: Bearer " +:+ __jwt_token a;
                    "Accept: " +:+ __api_version a];
     readdata := None; postfields := None; verbose := false |}.

(** The client of [example_cached] in a CI job: CI_COMMIT_SHA is set. *)
Definition example_ci : World :=
  mkWorld (self example_cached) {[ "CI_COMMIT_SHA" := "c0ffee" ]}
    (disk example_cached) example_github [] [] (fun _ => 1600000000) 0.

Section ClientTree.
Context `{Platform}.

(** [App.__fillTree(current_node, branch)]. In the body of the loop, the
    statement after [c.close()] names an undefined [getvalue], so the first
    directory met ends the walk with NameError once its request is sent;
    inserting and recursing are never reached. *)
Definition __fillTree (current_node : Node) (branch : string) : M unit :=
  let nodes := getNodes current_node in
  for_each nodes (fun node =>
    a ← get_self;
    let custom_data := JDict {[ "branch" := JStr branch ]} in
    perform {| url := __repo_url a +:+ "/contents/" +:+ getPath node;
               method := GET; httpheader := __header a;
               readdata := Some custom_data; postfields := None;
               verbose := false |};;
    unreachable ← (raise (NameError "getvalue") : M Empty_set);
    match unreachable : Empty_set with end).

(** [App.getBranchTree(branch, access_token)]. Its third statement names an
    undefined [dumps], so the method raises NameError before any request;
    reading the listing, inserting into the tree and [__fillTree] are never
    reached. *)
Definition getBranchTree (branch access_token : string) : M unit :=
  unreachable ← (raise (NameError "dumps") : M Empty_set);
  match unreachable : Empty_set with end.

End ClientTree.

(** What [initialize] sets before the handshake, together with the identity
    given to [__init__]. *)
Definition settings (w : World) :=
  let a := self w in
  (__app_id a, __name a, __user a, __repo_name a, __ignore a, __use_wiki a,
   __repo_url a, __create_branch a, __default_branch a,
   __default_image_branch a, __branches a, __branch_current_commit_sha a,
   __api_version a, __parth_root a, __parthenon_home a, __parthenon_wiki_dir a).

(** The platform of the examples with the script installed outside any
    checkout of the repository. *)
Definition example_elsewhere : Platform :=
  {| os_path_normpath := os_path_normpath (Platform := example_platform);
     os_path_basename := os_path_basename (Platform := example_platform);
     base64_b64encode := base64_b64encode (Platform := example_platform);
     jwt_encode := jwt_encode (Platform := example_platform);
     pem_parse := pem_parse (Platform := example_platform);
     file_parent := "/opt/tools/bin";
     file_realpath := "/opt/tools/bin/app.py" |}.

(** The request by which [upload] commits a file. *)
Definition commit_request `{Platform} (a : App) (file_name branch : string)
    (contents : gmap pykey json) (data : list Byte.byte) : request :=
  {| url := __repo_url a +:+ "/contents/" +:+ file_name; method := PUT;
     httpheader := __header a;
     readdata := Some (JDict
       (upload_custom_data a file_name branch contents (base64_b64encode data)));
     postfields := None; verbose := true |}.

(** The world of [example_cached] with the create flag on. *)
Definition example_create : World :=
  set_self (set__create_branch true (self example_cached)) example_cached.

(* ===================================================================== *)
(** * Lemmas on strings                                                    *)
(* ===================================================================== *)

Lemma append_cons (x : ascii) (a b : string) :
  String x a +:+ b = String x (a +:+ b).
Proof. reflexivity. Qed.

Lemma append_nil_l (a : string) : "" +:+ a = a.
Proof. reflexivity. Qed.

Lemma append_assoc (a b c : string) : (a +:+ b) +:+ c = a +:+ (b +:+ c).
Proof.
  induction a as [|x a IH]; [done|]. by rewrite !append_cons, IH.
Qed.

Lemma append_nil_r (a : string) : a +:+ "" = a.
Proof.
  induction a as [|x a IH]; [done|]. by rewrite append_cons, IH.
Qed.

Lemma prefix_append (a b : string) : String.prefix a (a +:+ b) = true.
Proof.
  induction a as [|x a IH]; [by destruct b|].
  rewrite append_cons. simpl. by destruct (ascii_dec x x).
Qed.

(* ===================================================================== *)
(** * Tree model: lemmas                                                   *)
(* ===================================================================== *)

Lemma paths_ok_unfold parent_path n :
  paths_ok parent_path n ↔
  rel_path n = parent_path +:+ dir n ∧ Forall (paths_ok (rel_path n +:+ "/")) (dirs n).
Proof.
  destruct n as [d ds fs ms rp]; simpl.
  split; intros [H1 H2]; (split; [exact H1|]).
  - induction ds as [|c ds IH]; [constructor|].
    destruct H2 as [Hc Hrest]. constructor; [exact Hc | exact (IH Hrest)].
  - induction ds as [|c ds IH]; [exact I|].
    inversion H2 as [|? ? Hc Hrest]. split; [exact Hc | exact (IH Hrest)].
Qed.

Lemma misc_free_unfold n :
  misc_free n ↔ misc n = [] ∧ Forall misc_free (dirs n).
Proof.
  destruct n as [d ds fs ms rp]; simpl.
  split; intros [H1 H2]; (split; [exact H1|]).
  - induction ds as [|c ds IH]; [constructor|].
    destruct H2 as [Hc Hrest]. constructor; [exact Hc | exact (IH Hrest)].
  - induction ds as [|c ds IH]; [exact I|].
    inversion H2 as [|? ? Hc Hrest]. split; [exact Hc | exact (IH Hrest)].
Qed.

Lemma printTree_unfold n :
  printTree n =
  ["Contents in folder: " +:+ rel_path n]
  ++ map (fun fil => "File " +:+ fil) (files n)
  ++ map (fun mis => "Misc " +:+ mis) (misc n)
  ++ concat (map printTree (dirs n)).
Proof.
  destruct n as [d ds fs ms rp]; simpl.
  do 3 f_equal.
  induction ds as [|c ds IH]; [done|]. simpl. by rewrite IH.
Qed.

Lemma insert_paths_ok parent_path n content content_type :
  paths_ok parent_path n → paths_ok parent_path (insert n content content_type).
Proof.
  rewrite !paths_ok_unfold. intros [Hp Hds]. unfold insert.
  destruct (String.eqb content_type "dir"); [|by destruct (String.eqb content_type "file")].
  simpl. split; [done|].
  apply Forall_app; split; [done|].
  apply Forall_singleton, paths_ok_unfold. by simpl.
Qed.

Lemma insert_at_paths_ok address content content_type :
  ∀ parent_path n,
    paths_ok parent_path n →
    paths_ok parent_path (insert_at address content content_type n).
Proof.
  induction address as [|i rest IH]; intros parent_path n Hn; simpl.
  - by apply insert_paths_ok.
  - unfold getNodes. destruct (dirs n !! i) as [child|] eqn:Hi; [|done].
    apply paths_ok_unfold in Hn as [Hp Hds].
    apply paths_ok_unfold; simpl. split; [done|].
    apply Forall_insert; [done|].
    apply IH. by eapply Forall_lookup_1.
Qed.

Lemma built_paths_ok root : built root → paths_ok "" root ∧ dir root = "".
Proof.
  induction 1 as [|root address content content_type _ [IH1 IH2]].
  - split; [|done]. apply paths_ok_unfold. by simpl.
  - split; [by apply insert_at_paths_ok|].
    destruct address as [|i rest]; simpl.
    + unfold insert. by repeat case_match.
    + by case_match.
Qed.

Lemma concat_slash_cons (x y : string) (l : list string) :
  String.concat "/" (x :: y :: l) = x +:+ "/" +:+ String.concat "/" (y :: l).
Proof. done. Qed.

Lemma descend_path address :
  ∀ parent_path root names n,
    paths_ok parent_path root →
    descend address root = Some (names, n) →
    rel_path n = parent_path +:+ String.concat "/" (names ++ [dir n]).
Proof.
  induction address as [|i rest IH]; intros parent_path root names n Hroot Hd;
    simpl in Hd.
  - injection Hd as <- <-. simpl. by apply paths_ok_unfold in Hroot as [? _].
  - unfold getNodes in Hd.
    destruct (dirs root !! i) as [child|] eqn:Hi; [|done].
    destruct (descend rest child) as [[names' n']|] eqn:Hrest; [|done].
    injection Hd as <- <-.
    apply paths_ok_unfold in Hroot as [Hp Hds].
    assert (Hchild : paths_ok (rel_path root +:+ "/") child)
      by by eapply Forall_lookup_1.
    rewrite (IH _ _ _ _ Hchild Hrest), Hp.
    destruct names' as [|y l]; simpl app; rewrite concat_slash_cons;
      by rewrite !append_assoc.
Qed.

Lemma insert_misc_free n content content_type :
  misc_free n → misc_free (insert n content content_type).
Proof.
  rewrite !misc_free_unfold. intros [Hm Hds]. unfold insert.
  destruct (String.eqb content_type "dir"); [|by destruct (String.eqb content_type "file")].
  simpl. split; [done|].
  apply Forall_app; split; [done|].
  apply Forall_singleton, misc_free_unfold. by simpl.
Qed.

Lemma insert_at_misc_free address content content_type :
  ∀ n, misc_free n → misc_free (insert_at address content content_type n).
Proof.
  induction address as [|i rest IH]; intros n Hn; simpl.
  - by apply insert_misc_free.
  - unfold getNodes. destruct (dirs n !! i) as [child|] eqn:Hi; [|done].
    apply misc_free_unfold in Hn as [Hm Hds].
    apply misc_free_unfold; simpl. split; [done|].
    apply Forall_insert; [done|].
    apply IH. by eapply Forall_lookup_1.
Qed.

Lemma built_misc_free root : built root → misc_free root.
Proof.
  induction 1 as [|root address content content_type _ IH].
  - apply misc_free_unfold. by simpl.
  - by apply insert_at_misc_free.
Qed.

Lemma descend_misc address :
  ∀ root names n,
    misc_free root → descend address root = Some (names, n) → misc n = [].
Proof.
  induction address as [|i rest IH]; intros root names n Hroot Hd; simpl in Hd.
  - injection Hd as <- <-. by apply misc_free_unfold in Hroot as [? _].
  - unfold getNodes in Hd.
    destruct (dirs root !! i) as [child|] eqn:Hi; [|done].
    destruct (descend rest child) as [[names' n']|] eqn:Hrest; [|done].
    injection Hd as <- <-.
    apply misc_free_unfold in Hroot as [_ Hds].
    eapply IH; [|done]. by eapply Forall_lookup_1.
Qed.

Lemma depth_child n c : c ∈ dirs n → (depth c < depth n)%nat.
Proof.
  destruct n as [d ds fs ms rp]; simpl. intros Hc.
  induction ds as [|x ds IH]; [by apply elem_of_nil in Hc|].
  apply elem_of_cons in Hc as [->|Hc]; [lia|].
  specialize (IH Hc). lia.
Qed.

Lemma printTree_lines n :
  misc_free n →
  ∀ line, line ∈ printTree n →
    String.prefix "Contents in folder: " line = true ∨ String.prefix "File " line = true.
Proof.
  remember (depth n) as k eqn:Hk.
  revert n Hk. induction (lt_wf k) as [k _ IH]. intros n -> Hn line.
  apply misc_free_unfold in Hn as [Hm Hds].
  rewrite printTree_unfold, Hm. simpl map. rewrite app_nil_l.
  rewrite !elem_of_app, list_elem_of_singleton, list_elem_of_fmap.
  intros [->|[(fil & -> & _)|Hin]].
  - left. apply prefix_append.
  - right. apply prefix_append.
  - apply list_elem_of_In, in_concat in Hin as (lines & Hlines & Hline).
    apply list_elem_of_In, list_elem_of_fmap in Hlines as (c & -> & Hc).
    apply list_elem_of_In in Hline.
    eapply (IH (depth c)); [by apply depth_child|done| |done].
    rewrite Forall_forall in Hds. by apply Hds.
Qed.

(* ===================================================================== *)
(** * Tree model: properties                                               *)
(* ===================================================================== *)

(** C5. In every tree built from [Node()] by inserts, the root has empty
    name and empty path, and the path of every node is the names of its
    ancestors (the root first) followed by its own name, joined by "/". *)
Theorem node_path_is_joined_names (root : Node) :
  built root →
  dir root = "" ∧ getPath root = "" ∧
  ∀ address names n,
    descend address root = Some (names, n) →
    getPath n = String.concat "/" (names ++ [dir n]).
Proof.
  intros Hb. destruct (built_paths_ok root Hb) as [Hok Hdir].
  split; [done|]. split.
  - unfold getPath. apply paths_ok_unfold in Hok as [-> _]. by rewrite Hdir.
  - intros address names n Hd. unfold getPath.
    by rewrite (descend_path address "" root names n Hok Hd).
Qed.

Lemma node_path_is_joined_names_witness :
  built example_nested ∧
  descend [0%nat; 0%nat] example_nested = Some ([""; "a"], Node_init "b" "/a/") ∧
  getPath (Node_init "b" "/a/") = "/a/b".
Proof.
  assert (Hb : built example_nested)
    by (do 2 apply built_insert; apply built_root).
  split; [exact Hb|]. split; [reflexivity|].
  destruct (node_path_is_joined_names example_nested Hb) as (_ & _ & H).
  exact (H [0%nat; 0%nat] [""; "a"] (Node_init "b" "/a/") eq_refl).
Defined.

(** C10. In every tree built from [Node()] by inserts, whatever the content
    types, the [misc] list of every node is empty and no line printed by
    [printTree] starts with "Misc ". *)
Theorem insert_never_fills_misc (root : Node) :
  built root →
  (∀ address names n, descend address root = Some (names, n) → misc n = []) ∧
  (∀ line, line ∈ printTree root → String.prefix "Misc " line = false).
Proof.
  intros Hb. pose proof (built_misc_free root Hb) as Hfree. split.
  - intros address names n Hd. by eapply descend_misc.
  - intros line Hline.
    destruct (printTree_lines root Hfree line Hline) as [H|H];
      apply String.prefix_correct in H; simpl in H;
      destruct line as [|c line]; [done| |done|];
      injection H as -> _; done.
Qed.

Lemma insert_never_fills_misc_witness :
  built example_symlink ∧ misc example_symlink = [] ∧
  printTree example_symlink =
    ["Contents in folder: "; "File notes"; "Contents in folder: /a"].
Proof.
  assert (Hb : built example_symlink)
    by (do 2 apply built_insert; apply built_root).
  split; [exact Hb|]. split; [|reflexivity].
  exact (proj1 (insert_never_fills_misc example_symlink Hb) [] [] _ eq_refl).
Defined.

(* ===================================================================== *)
(** * Repository client: lemmas                                            *)
(* ===================================================================== *)

Lemma bind_returned {A B : Type} (m : M A) (k : A → M B) w a w' :
  m w = (Returned a, w') → (m ≫= k) w = k a w'.
Proof. intros Hm. unfold mbind, M_bind. by rewrite Hm. Qed.

Lemma bind_raised {A B : Type} (m : M A) (k : A → M B) w e w' :
  m w = (Raised e, w') → (m ≫= k) w = (Raised e, w').
Proof. intros Hm. unfold mbind, M_bind. by rewrite Hm. Qed.

Lemma bind_inv {A B : Type} (m : M A) (k : A → M B) w res w' :
  (m ≫= k) w = (res, w') →
  (∃ a w1, m w = (Returned a, w1) ∧ k a w1 = (res, w')) ∨
  (∃ e, m w = (Raised e, w') ∧ res = Raised e).
Proof.
  unfold mbind, M_bind. destruct (m w) as [[a|e] w1]; intros Hk.
  - left. by exists a, w1.
  - right. exists e. by injection Hk as <- <-.
Qed.

Lemma pure_bind {A B : Type} (m : M A) (k : A → M B) :
  pure m → (∀ a, pure (k a)) → pure (m ≫= k).
Proof.
  intros Hm Hk w. unfold mbind, M_bind. specialize (Hm w).
  destruct (m w) as [[a|e] w1]; simpl in Hm; subst w1; [apply Hk | done].
Qed.

Lemma pure_return {A : Type} (a : A) : pure (return_ a).
Proof. by intros w. Qed.

Lemma pure_raise {A : Type} (e : exn) : pure (raise (A := A) e).
Proof. by intros w. Qed.

Lemma pure_getitem j key : pure (getitem j key).
Proof.
  destruct j; try apply pure_raise. simpl.
  destruct (fields !! key); [apply pure_return | apply pure_raise].
Qed.

Lemma pure_hash_key j : pure (hash_key j).
Proof. destruct j; first [apply pure_return | apply pure_raise]. Qed.

Lemma pure_iterate j : pure (iterate j).
Proof. destruct j; first [apply pure_return | apply pure_raise]. Qed.

Lemma pure_json_loads answer : pure (json_loads answer).
Proof. destruct answer; first [apply pure_return | apply pure_raise]. Qed.

Lemma pure_getContents_loop items :
  ∀ contents, pure (getContents_loop items contents).
Proof.
  induction items as [|obj rest IH]; intros contents; simpl.
  - apply pure_return.
  - apply pure_bind; [apply pure_getitem|]. intros sha.
    apply pure_bind; [apply pure_getitem|]. intros name.
    apply pure_bind; [apply pure_hash_key|]. intros key. apply IH.
Qed.

Lemma silent_pure {A : Type} (m : M A) : pure m → silent m.
Proof. intros Hm w. by rewrite Hm. Qed.

Lemma silent_bind {A B : Type} (m : M A) (k : A → M B) :
  silent m → (∀ a, silent (k a)) → silent (m ≫= k).
Proof.
  intros Hm Hk w. unfold mbind, M_bind. specialize (Hm w).
  destruct (m w) as [[a|e] w1]; simpl in Hm; [|done].
  by rewrite Hk.
Qed.

Lemma silent_assign {V : Type} (setter : V → App → App) (v : V) :
  silent (assign setter v).
Proof. by intros w. Qed.

Lemma silent_get_self : silent get_self.
Proof. by intros w. Qed.

Lemma silent_for_each {A : Type} (items : list A) (body : A → M unit) :
  (∀ x, silent (body x)) → silent (for_each items body).
Proof.
  intros Hbody. induction items as [|x rest IH]; simpl.
  - apply silent_pure, pure_return.
  - apply silent_bind; [apply Hbody | by intros _].
Qed.

Lemma silent___getBranches_body js_obj : silent (__getBranches_body js_obj).
Proof.
  unfold __getBranches_body.
  repeat first
    [ apply silent_bind; [|intros ?]
    | apply silent_assign
    | apply silent_get_self
    | apply silent_pure, pure_getitem
    | apply silent_pure, pure_hash_key ].
Qed.

(** The live query sends one request, a GET. *)
Lemma __getBranches_sent w :
  ∃ r, sent (snd (__getBranches w)) = sent w ++ [r] ∧ method r = GET.
Proof.
  unfold __getBranches.
  rewrite (bind_returned get_self _ w (self w) w eq_refl).
  set (r := {| url := __repo_url (self w) +:+ "/branches"; method := GET;
               httpheader := __header (self w); readdata := None;
               postfields := None; verbose := false |}).
  exists r. split; [|done].
  set (rest := fun answer : reply => _ : M unit).
  assert (Hrest : ∀ answer, silent (rest answer)).
  { intros answer. unfold rest.
    repeat first
      [ apply silent_bind; [|intros ?]
      | apply silent_assign
      | apply silent_pure, pure_json_loads
      | apply silent_pure, pure_iterate
      | apply silent_for_each; intros ?; apply silent___getBranches_body ]. }
  unfold mbind, M_bind at 1. unfold perform at 1.
  destruct (github w _); simpl; try done; by rewrite Hrest.
Qed.

Lemma getBranches_sent w :
  ∃ gets, sent (snd (getBranches w)) = sent w ++ gets
          ∧ Forall (fun r => method r = GET) gets.
Proof.
  unfold getBranches.
  rewrite (bind_returned get_self _ w (self w) w eq_refl).
  destruct (__branches (self w)) as [|b bs].
  - destruct (__getBranches_sent w) as (r & Hsent & Hr).
    exists [r]. split; [|by constructor].
    unfold mbind, M_bind at 1.
    destruct (__getBranches w) as [[[]|e] w1]; simpl in *; done.
  - exists []. by rewrite app_nil_r.
Qed.

Lemma branchExist_sent branch w :
  ∃ gets, sent (snd (branchExist branch w)) = sent w ++ gets
          ∧ Forall (fun r => method r = GET) gets.
Proof.
  destruct (getBranches_sent w) as (gets & Hsent & Hgets).
  exists gets. split; [|done].
  unfold branchExist, mbind, M_bind.
  destruct (getBranches w) as [[bs|e] w1]; simpl in *; [|done].
  by destruct (str_in branch bs).
Qed.

Lemma str_in_elem_of s l : str_in s l = true ↔ JStr s ∈ l.
Proof.
  unfold str_in. rewrite existsb_exists. split.
  - intros (j & Hj & Heq). destruct j; simpl in Heq; try done.
    apply String.eqb_eq in Heq as ->. by apply list_elem_of_In.
  - intros Hin. exists (JStr s). split; [by apply list_elem_of_In|].
    simpl. apply String.eqb_refl.
Qed.

(** With a filled cache, [getBranches] and [branchExist] only read it. *)
Lemma getBranches_cached w :
  __branches (self w) ≠ [] → getBranches w = (Returned (__branches (self w)), w).
Proof.
  intros Hne. unfold getBranches.
  rewrite (bind_returned get_self _ w (self w) w eq_refl).
  destruct (__branches (self w)) as [|b bs] eqn:Hb; [done|].
  rewrite (bind_returned (return_ ()) _ w () w eq_refl).
  rewrite (bind_returned get_self _ w (self w) w eq_refl).
  by rewrite Hb.
Qed.

Lemma branchExist_cached branch w :
  __branches (self w) ≠ [] →
  branchExist branch w = (Returned (str_in branch (__branches (self w))), w).
Proof.
  intros Hne. unfold branchExist.
  rewrite (bind_returned _ _ _ _ _ (getBranches_cached w Hne)).
  by destruct (str_in branch (__branches (self w))).
Qed.

Lemma branchExist_member branch w :
  JStr branch ∈ __branches (self w) → branchExist branch w = (Returned true, w).
Proof.
  intros Hin. rewrite branchExist_cached.
  - by apply str_in_elem_of in Hin as ->.
  - intros Hnil. rewrite Hnil in Hin. by apply elem_of_nil in Hin.
Qed.

(* ===================================================================== *)
(** * Repository client: properties                                        *)
(* ===================================================================== *)

(** C4. [createBranch(branch, branch_to_fork_from)] on a branch that is in
    the cached list of branches returns at once: nothing is sent and the
    world, the cache included, is what it was. *)
Theorem createBranch_existing_is_noop (w : World) (branch : string)
    (branch_to_fork_from : option string) :
  JStr branch ∈ __branches (self w) →
  createBranch branch branch_to_fork_from w = (Returned (), w).
Proof.
  intros Hin. unfold createBranch.
  rewrite (bind_returned get_self _ w (self w) w eq_refl).
  by rewrite (bind_returned _ _ _ _ _ (branchExist_member branch w Hin)).
Qed.

Lemma createBranch_existing_is_noop_witness :
  JStr "figures" ∈ __branches (self example_cached) ∧
  createBranch "figures" (Some "develop") example_cached
    = (Returned (), example_cached).
Proof.
  assert (Hin : JStr "figures" ∈ __branches (self example_cached))
    by (vm_compute; apply list_elem_of_In; simpl; auto).
  split; [exact Hin|].
  exact (createBranch_existing_is_noop example_cached "figures" (Some "develop") Hin).
Defined.

(** C6, as stated, fails on an empty cache: right after [initialize] no
    branch is in the cached list, develop included, yet
    [createBranch("x", "develop")] fetches the list, finds develop in it and
    posts the new ref. *)
Lemma createBranch_empty_cache_counterexample :
  (JStr "x" ∉ __branches (self example_ready)) ∧
  (JStr "develop" ∉ __branches (self example_ready)) ∧
  fst (createBranch "x" (Some "develop") example_ready) = Returned () ∧
  last (sent (snd (createBranch "x" (Some "develop") example_ready))) =
    Some {| url := "https://api.github.com/repos/lanl/parthenon/git/refs";
            method := POST;
            httpheader := ["Authorization: token v1.token";
                           "Accept: application/vnd.github.v3+json"];
            readdata := Some (JDict {[ "ref" := JStr "refs/heads/x";
                                       "sha" := JStr "c0ffee" ]});
            postfields := None; verbose := false |}.
Proof.
  split; [|split]; [vm_compute; apply not_elem_of_nil..|].
  split; vm_compute; reflexivity.
Qed.

(** C6, amended. When neither check of [createBranch] finds its branch, each
    check reading the cached list and fetching it first if it is empty,
    the call raises the exception that names both branches, and what it has
    sent by then are GET requests only: no ref is created. *)
Theorem createBranch_fork_missing (w w1 w2 : World) (branch : string)
    (branch_to_fork_from : option string) :
  let fork := default (__default_branch (self w)) branch_to_fork_from in
  branchExist branch w = (Returned false, w1) →
  branchExist fork w1 = (Returned false, w2) →
  createBranch branch branch_to_fork_from w =
    (Raised (Exception
       ("Cannot create new branch: " +:+ branch +:+ " from " +:+ fork
          +:+ " because " +:+ fork +:+ " does not exist.")), w2)
  ∧ ∃ gets, sent w2 = sent w ++ gets ∧ Forall (fun r => method r = GET) gets.
Proof.
  intros fork H1 H2. split.
  - unfold createBranch.
    rewrite (bind_returned get_self _ w (self w) w eq_refl).
    rewrite (bind_returned _ _ _ _ _ H1). simpl.
    by rewrite (bind_returned _ _ _ _ _ H2).
  - destruct (branchExist_sent branch w) as (g1 & Hs1 & Hg1).
    destruct (branchExist_sent fork w1) as (g2 & Hs2 & Hg2).
    rewrite H1 in Hs1. rewrite H2 in Hs2. simpl in Hs1, Hs2.
    exists (g1 ++ g2). split.
    + by rewrite Hs2, Hs1, app_assoc.
    + by apply Forall_app.
Qed.

Lemma createBranch_fork_missing_witness :
  branchExist "x" example_ready = (Returned false, example_cached) ∧
  branchExist "ghost" example_cached = (Returned false, example_cached) ∧
  createBranch "x" (Some "ghost") example_ready =
    (Raised (Exception
       "Cannot create new branch: x from ghost because ghost does not exist."),
     example_cached).
Proof.
  assert (H1 : branchExist "x" example_ready = (Returned false, example_cached))
    by (vm_compute; reflexivity).
  assert (H2 : branchExist "ghost" example_cached = (Returned false, example_cached))
    by (vm_compute; reflexivity).
  split; [exact H1|]. split; [exact H2|].
  exact (proj1 (createBranch_fork_missing example_ready example_cached
                  example_cached "x" (Some "ghost") H1 H2)).
Defined.

(** C7. [postStatus(state, commit_sha)] with a state other than pending,
    failed, error and success raises the "Unrecognized state" exception and
    leaves the world as it was: nothing is sent, nothing changes. *)
Theorem postStatus_rejects_unknown_state (w : World) (state : string)
    (commit_sha : option string) :
  state ∉ ["pending"; "failed"; "error"; "success"] →
  postStatus state commit_sha w =
    (Raised (Exception ("Unrecognized state specified " +:+ state)), w).
Proof.
  intros Hstate. unfold postStatus. by rewrite bool_decide_false.
Qed.

Lemma postStatus_rejects_unknown_state_witness :
  ("bogus" ∉ ["pending"; "failed"; "error"; "success"]) ∧
  postStatus "bogus" (Some "c0ffee") example_ready =
    (Raised (Exception "Unrecognized state specified bogus"), example_ready).
Proof.
  assert (Hbogus : "bogus" ∉ ["pending"; "failed"; "error"; "success"])
    by (rewrite !not_elem_of_cons; repeat split; try discriminate;
        apply not_elem_of_nil).
  split; [exact Hbogus|].
  exact (postStatus_rejects_unknown_state example_ready "bogus" (Some "c0ffee") Hbogus).
Defined.

(** C8. When CI_COMMIT_SHA is not in the environment, [getStatus()] and
    [postStatus(state)] with a valid state and no commit raise the
    "CI_COMMIT_SHA not defined" exception and leave the world as it was:
    nothing is sent. *)
Theorem status_needs_commit_sha (w : World) :
  environ w !! "CI_COMMIT_SHA" = None →
  getStatus w =
    (Raised (Exception
       "CI_COMMIT_SHA not defined in environment cannot post status"), w)
  ∧ ∀ state, state ∈ ["pending"; "failed"; "error"; "success"] →
      postStatus state None w =
        (Raised (Exception
           "CI_COMMIT_SHA not defined in environment cannot post status"), w).
Proof.
  intros Henv. split.
  - unfold getStatus, mbind, M_bind, os_getenv. by rewrite Henv.
  - intros state Hstate. unfold postStatus.
    rewrite bool_decide_true by done. simpl.
    unfold mbind, M_bind, os_getenv. by rewrite Henv.
Qed.

Lemma status_needs_commit_sha_witness :
  environ example_ready !! "CI_COMMIT_SHA" = None ∧
  getStatus example_ready =
    (Raised (Exception
       "CI_COMMIT_SHA not defined in environment cannot post status"),
     example_ready) ∧
  postStatus "success" None example_ready =
    (Raised (Exception
       "CI_COMMIT_SHA not defined in environment cannot post status"),
     example_ready).
Proof.
  assert (Henv : environ example_ready !! "CI_COMMIT_SHA" = None)
    by (vm_compute; reflexivity).
  destruct (status_needs_commit_sha example_ready Henv) as [Hget Hpost].
  split; [exact Henv|]. split; [exact Hget|].
  apply Hpost. do 3 apply list_elem_of_further. apply list_elem_of_here.
Defined.

(* --------------------------------------------------------------------- *)
(** ** Uploads                                                             *)
(* --------------------------------------------------------------------- *)

Lemma lower_append (a b : string) : lower (a +:+ b) = lower a +:+ lower b.
Proof.
  induction a as [|x a IH]; [done|].
  rewrite append_cons. simpl. by rewrite IH, append_cons.
Qed.

Lemma endswith_refl (s : string) : endswith s s = true.
Proof.
  destruct s as [|c s]; unfold endswith; fold endswith;
    by rewrite String.eqb_refl.
Qed.

Lemma endswith_append (a b : string) : endswith (a +:+ b) b = true.
Proof.
  induction a as [|x a IH]; [apply endswith_refl|].
  rewrite append_cons. unfold endswith; fold endswith.
  rewrite IH. apply orb_true_r.
Qed.

Lemma image_suffix_recognised (stem ext : string) :
  lower ext ∈ ["png"; "jpg"; "jpeg"; "tiff"; "bmp"; "gif"] →
  endswith_any (lower (stem +:+ "." +:+ ext)) image_suffixes = true.
Proof.
  intros Hext. unfold endswith_any. apply existsb_exists.
  exists ("." +:+ lower ext). split.
  - apply list_elem_of_In.
    repeat (apply elem_of_cons in Hext as [->|Hext];
            [unfold image_suffixes; set_solver|]).
    by apply elem_of_nil in Hext.
  - rewrite !lower_append. apply endswith_append.
Qed.

(** The image override either redirects the upload or changes nothing. *)
Lemma upload_image_override_redirect w file_name branch :
  endswith_any (lower file_name) image_suffixes = true →
  __ignore (self w) = false →
  branch ≠ __default_image_branch (self w) →
  upload_image_override file_name branch w =
    (Returned (__default_image_branch (self w)), image_redirected w).
Proof.
  intros Himg Hign Hne. unfold upload_image_override.
  rewrite (bind_returned get_self _ w (self w) w eq_refl).
  rewrite Himg, Hign.
  apply String.eqb_neq in Hne as ->. simpl.
  unfold image_redirected, mbind, M_bind, print, assign, return_, mret, M_ret,
    set_stdout, set_self; simpl.
  by rewrite <- app_assoc.
Qed.

Lemma upload_image_override_keep w file_name branch :
  endswith_any (lower file_name) image_suffixes = false
  ∨ __ignore (self w) = true
  ∨ branch = __default_image_branch (self w) →
  upload_image_override file_name branch w = (Returned branch, w).
Proof.
  intros Hkeep. unfold upload_image_override.
  rewrite (bind_returned get_self _ w (self w) w eq_refl).
  destruct (endswith_any (lower file_name) image_suffixes); [|done].
  destruct Hkeep as [?|[->| ->]]; [done| |].
  - by rewrite andb_false_r.
  - by rewrite String.eqb_refl.
Qed.

Lemma upload_unfold `{Platform} file_arg (file_name : string) branch use_wiki w :
  unwrapped file_arg = Returned file_name →
  upload file_arg branch use_wiki w =
    (target ← upload_image_override file_name
                 (default (__default_branch (self w)) branch);
     a ← get_self;
     if __use_wiki a || use_wiki then upload_wiki file_name target
     else upload_repo file_name target) w.
Proof.
  intros Harg. unfold upload, unwrap.
  rewrite (bind_returned (lift (unwrapped file_arg)) _ w file_name w)
    by (unfold lift; by rewrite Harg).
  by rewrite (bind_returned get_self _ w (self w) w eq_refl).
Qed.

(** [getContents] sends its request and changes nothing else. *)
Lemma getContents_world branch w :
  ∃ r, snd (getContents branch w) = set_sent (sent w ++ [r]) w.
Proof.
  unfold getContents.
  rewrite (bind_returned get_self _ w (self w) w eq_refl).
  eexists. unfold mbind, M_bind at 1. unfold perform at 1.
  set (w' := set_sent _ w).
  destruct (github w (sent w')); simpl; [| |done].
  - unfold mbind, M_bind, return_, mret, M_ret. simpl.
    destruct j; try done. apply pure_getContents_loop.
  - done.
Qed.

Lemma createBranch_member w branch branch_to_fork_from :
  JStr branch ∈ __branches (self w) →
  createBranch branch branch_to_fork_from w = (Returned (), w).
Proof.
  intros Hin. unfold createBranch.
  rewrite (bind_returned get_self _ w (self w) w eq_refl).
  by rewrite (bind_returned _ _ _ _ _ (branchExist_member branch w Hin)).
Qed.

Lemma upload_custom_data_fields a file_name branch contents encoded_file :
  let body := upload_custom_data a file_name branch contents encoded_file in
  match contents !! KStr file_name with
  | Some sha =>
      body !! "message" = Some (JStr (__name a +:+ " overwriting file " +:+ file_name))
      ∧ body !! "sha" = Some sha
  | None =>
      body !! "message" = Some (JStr (__name a +:+ " uploading file " +:+ file_name))
      ∧ body !! "sha" = None
  end.
Proof.
  unfold upload_custom_data.
  destruct (contents !! KStr file_name) as [sha|]; simpl; split;
    by simplify_map_eq.
Qed.

(** C1, as stated, fails when the requested branch already is the image
    branch: with neither wiki mode nor the ignore flag set,
    [upload("chart.png", "figures")] goes to figures and prints nothing. *)
Lemma upload_image_to_figures_counterexample :
  endswith_any (lower "chart.png") image_suffixes = true ∧
  __ignore (self example_cached) = false ∧
  __use_wiki (self example_cached) = false ∧
  fst (upload (H := example_platform) (One "chart.png") (Some "figures") false
         example_cached) = Returned () ∧
  stdout (snd (upload (H := example_platform) (One "chart.png") (Some "figures")
                 false example_cached)) = [].
Proof. repeat split; vm_compute; reflexivity. Qed.

(** C1, amended. For a file name with an image suffix: when the ignore flag
    is off and the requested branch is not the image branch, the upload
    continues on the image branch ("figures" after [initialize]) in a world
    where the two lines of the note are printed and [__use_wiki] is off, the
    [use_wiki] argument of the call being left as it is; when the ignore flag
    is on, or the requested branch already is the image branch, the upload
    continues on the requested branch and nothing is printed or changed. *)
Theorem upload_image_redirect `{Platform} (w : World) (file_arg : arg string)
    (file_name : string) (branch : option string) (use_wiki : bool) :
  let requested := default (__default_branch (self w)) branch in
  let figures := __default_image_branch (self w) in
  unwrapped file_arg = Returned file_name →
  endswith_any (lower file_name) image_suffixes = true →
  (__ignore (self w) = false → requested ≠ figures →
     upload file_arg branch use_wiki w =
       (if use_wiki then upload_wiki file_name figures
        else upload_repo file_name figures) (image_redirected w)
     ∧ __use_wiki (self (image_redirected w)) = false
     ∧ stdout (image_redirected w) =
         stdout w ++
           [Text ("Note all images will be uploaded to a branch named: "
                    +:+ figures +:+ " in the main repository.");
            Text "Unless the ignore flag is used."])
  ∧ (__ignore (self w) = true ∨ requested = figures →
     upload file_arg branch use_wiki w =
       (if __use_wiki (self w) || use_wiki then upload_wiki file_name requested
        else upload_repo file_name requested) w).
Proof.
  intros requested figures Harg Himg. split.
  - intros Hign Hne. split; [|done].
    rewrite (upload_unfold _ _ _ _ _ Harg).
    rewrite (bind_returned _ _ _ _ _
               (upload_image_override_redirect w file_name requested Himg Hign Hne)).
    by rewrite (bind_returned get_self _ _ _ _ eq_refl).
  - intros Hkeep.
    rewrite (upload_unfold _ _ _ _ _ Harg).
    rewrite (bind_returned _ _ _ _ _
               (upload_image_override_keep w file_name requested
                  (or_intror Hkeep))).
    by rewrite (bind_returned get_self _ _ _ _ eq_refl).
Qed.

Lemma upload_image_redirect_witness :
  unwrapped (One "chart.png") = Returned "chart.png" ∧
  endswith_any (lower "chart.png") image_suffixes = true ∧
  __ignore (self example_cached) = false ∧
  "develop" ≠ __default_image_branch (self example_cached) ∧
  upload (H := example_platform) (One "chart.png") (Some "develop") false
      example_cached =
    upload_repo (H := example_platform) "chart.png" "figures"
      (image_redirected example_cached).
Proof.
  assert (Himg : endswith_any (lower "chart.png") image_suffixes = true)
    by reflexivity.
  assert (Hign : __ignore (self example_cached) = false)
    by (vm_compute; reflexivity).
  assert (Hne : "develop" ≠ __default_image_branch (self example_cached))
    by (vm_compute; discriminate).
  split; [reflexivity|]. split; [exact Himg|]. split; [exact Hign|].
  split; [exact Hne|].
  exact (proj1 (proj1 (upload_image_redirect (H := example_platform)
                         example_cached (One "chart.png") "chart.png"
                         (Some "develop") false eq_refl Himg) Hign Hne)).
Defined.

(** C9. The image test of [upload] does not depend on letter case: a file
    name that ends in a dot and an extension whose lower-case form is png,
    jpg, jpeg, tiff, bmp or gif passes the test, and the upload is redirected
    to the image branch when the ignore flag is off and the branch is not
    the image branch already. *)
Theorem image_test_ignores_case (stem ext : string) :
  lower ext ∈ ["png"; "jpg"; "jpeg"; "tiff"; "bmp"; "gif"] →
  endswith_any (lower (stem +:+ "." +:+ ext)) image_suffixes = true
  ∧ ∀ (w : World) (branch : string),
      __ignore (self w) = false →
      branch ≠ __default_image_branch (self w) →
      upload_image_override (stem +:+ "." +:+ ext) branch w =
        (Returned (__default_image_branch (self w)), image_redirected w).
Proof.
  intros Hext. pose proof (image_suffix_recognised stem ext Hext) as Himg.
  split; [exact Himg|].
  intros w branch Hign Hne. by apply upload_image_override_redirect.
Qed.

Lemma image_test_ignores_case_witness :
  (lower "Jpg" ∈ ["png"; "jpg"; "jpeg"; "tiff"; "bmp"; "gif"]) ∧
  endswith_any (lower ("Chart" +:+ "." +:+ "Jpg")) image_suffixes = true ∧
  upload_image_override "Chart.Jpg" "develop" example_cached =
    (Returned "figures", image_redirected example_cached).
Proof.
  assert (Hext : lower "Jpg" ∈ ["png"; "jpg"; "jpeg"; "tiff"; "bmp"; "gif"])
    by (apply list_elem_of_further, list_elem_of_here).
  destruct (image_test_ignores_case "Chart" "Jpg" Hext) as [Himg Hredirect].
  split; [exact Hext|]. split; [exact Himg|].
  apply (Hredirect example_cached "develop").
  - vm_compute; reflexivity.
  - vm_compute; discriminate.
Defined.

(** C2, as stated, fails for an image that the override redirects: develop
    is in the cache and its listing has chart.png, yet
    [upload("chart.png", "develop")] reads the listing of figures, which has
    no such file, and sends an "uploading" message without sha. *)
Lemma upload_redirected_image_counterexample :
  __use_wiki (self example_cached) = false ∧
  (JStr "develop" ∈ __branches (self example_cached)) ∧
  fst (getContents (Some "develop") example_cached) =
    Returned {[ KStr "chart.png" := JStr "a1"; KStr "README.md" := JStr "b2" ]} ∧
  (readdata <$> last (sent (snd (upload (H := example_platform) (One "chart.png")
                                  (Some "develop") false example_cached)))) =
    Some (Some (JDict
      {[ "message" := JStr "parthenon-metrics uploading file chart.png";
         "name" := JStr "parthenon-metrics";
         "content" := JStr "iVA=";
         "branch" := JStr "figures" ]})).
Proof.
  split; [vm_compute; reflexivity|].
  split; [vm_compute; apply list_elem_of_In; simpl; auto|].
  split; vm_compute; reflexivity.
Qed.

(* --------------------------------------------------------------------- *)
(** ** Signing the credential                                              *)
(* --------------------------------------------------------------------- *)

(** When the variable holds the empty string, the check of [__generateJWT]
    raises its exception and the signer is not called. *)
Lemma __generateJWT_empty_variable `{Platform} (w : World) :
  environ w !! "PARTHENON_METRICS_APP_PEM" = Some "" →
  __generateJWT "" w =
    (Raised (Exception
       "No permissions enabled for parthenon metrics app, either a pem file needs to "),
     set_clock_reads (S (S (clock_reads w))) w).
Proof.
  intros Henv. unfold __generateJWT.
  rewrite (bind_returned get_self _ w (self w) w eq_refl).
  unfold mbind, M_bind, utcnow, os_getenv. simpl. by rewrite Henv.
Qed.

(** When no file is given and the variable is not set, [PEM] is [None], the
    check [PEM == ""] does not fire, and the call is whatever the signer makes
    of the key [None]. *)
Lemma __generateJWT_unset_variable `{Platform} (w : World) :
  environ w !! "PARTHENON_METRICS_APP_PEM" = None →
  __generateJWT "" w =
    let w' := set_clock_reads (S (S (clock_reads w))) w in
    match jwt_encode (utc w (clock_reads w))
            (utc w (S (clock_reads w)) + 60) (__app_id (self w)) None with
    | Returned token => (Returned (), set_self (set__jwt_token token (self w)) w')
    | Raised e => (Raised e, w')
    end.
Proof.
  intros Henv. unfold __generateJWT.
  rewrite (bind_returned get_self _ w (self w) w eq_refl).
  unfold mbind, M_bind, utcnow, os_getenv, lift, assign. simpl. rewrite Henv.
  simpl. by destruct (jwt_encode _ _ _ None).
Qed.

(** When a file is given, the key is read from it: a file that is not there
    and a file without PEM object both end the call with an exception. *)
Lemma __generateJWT_file_without_key `{Platform} (w : World) (pem_file : string) :
  pem_file ≠ "" →
  disk w !! pem_file = None
  ∨ (∃ data, disk w !! pem_file = Some data ∧ pem_parse data = []) →
  ∃ e, __generateJWT pem_file w
       = (Raised e, set_clock_reads (S (S (clock_reads w))) w).
Proof.
  intros Hfile Hkey. apply String.eqb_neq in Hfile.
  unfold __generateJWT.
  rewrite (bind_returned get_self _ w (self w) w eq_refl).
  rewrite Hfile.
  unfold pem_parse_file, utcnow, read_file, mbind, M_bind. simpl.
  destruct Hkey as [Hnone|(data & Hdata & Hparse)].
  - rewrite Hnone. by eexists.
  - rewrite Hdata. simpl. rewrite Hparse. by eexists.
Qed.

(** C3. Signing without key material fails. Where the signing library
    rejects a key that is [None] (PyJWT raises TypeError for it), the call of
    [__generateJWT] raises in each case in which neither source gives a key:
    no file given and the variable unset (the library raises) or empty (the
    check of the method raises); a file given that is missing or holds no PEM
    object. No token is stored and nothing is sent: the world after the call
    differs from the one before by the two readings of the clock only. *)
Theorem __generateJWT_no_key_fails `{Platform} (w : World) (pem_file : string) :
  (∀ iat exp iss, ∃ e, jwt_encode iat exp iss None = Raised e) →
  pem_file = ""
  ∧ (environ w !! "PARTHENON_METRICS_APP_PEM" = None
     ∨ environ w !! "PARTHENON_METRICS_APP_PEM" = Some "")
  ∨ pem_file ≠ ""
    ∧ (disk w !! pem_file = None
       ∨ ∃ data, disk w !! pem_file = Some data ∧ pem_parse data = []) →
  ∃ e, __generateJWT pem_file w
       = (Raised e, set_clock_reads (S (S (clock_reads w))) w).
Proof.
  intros Hsigner [[-> [Hunset|Hempty]]|[Hfile Hkey]].
  - rewrite (__generateJWT_unset_variable w Hunset). cbv zeta.
    destruct (Hsigner (utc w (clock_reads w)) (utc w (S (clock_reads w)) + 60)
                (__app_id (self w))) as [e ->].
    by exists e.
  - rewrite (__generateJWT_empty_variable w Hempty). by eexists.
  - by apply __generateJWT_file_without_key.
Qed.

Lemma __generateJWT_no_key_fails_witness :
  (∀ iat exp iss,
     ∃ e, jwt_encode (Platform := example_platform) iat exp iss None = Raised e) ∧
  environ example_start !! "PARTHENON_METRICS_APP_PEM" = None ∧
  ∃ e, __generateJWT (H := example_platform) "" example_start
       = (Raised e, set_clock_reads 2 example_start).
Proof.
  assert (Hsigner : ∀ iat exp iss,
            ∃ e, jwt_encode (Platform := example_platform) iat exp iss None
                 = Raised e) by (intros iat exp iss; by exists TypeError).
  assert (Henv : environ example_start !! "PARTHENON_METRICS_APP_PEM" = None)
    by reflexivity.
  split; [exact Hsigner|]. split; [exact Henv|].
  exact (__generateJWT_no_key_fails (H := example_platform) example_start ""
           Hsigner (or_introl (conj eq_refl (or_introl Henv)))).
Defined.

(* ===================================================================== *)
(** * Further properties of the tree model and of the client              *)
(* ===================================================================== *)

Lemma preserves_bind {X A B : Type} (obs : World → X) (m : M A) (k : A → M B) :
  preserves obs m → (∀ a, preserves obs (k a)) → preserves obs (m ≫= k).
Proof.
  intros Hm Hk w. unfold mbind, M_bind. specialize (Hm w).
  destruct (m w) as [[a|e] w1]; simpl in Hm; [|done].
  by rewrite Hk.
Qed.

Lemma preserves_pure {X A : Type} (obs : World → X) (m : M A) :
  pure m → preserves obs m.
Proof. intros Hm w. by rewrite Hm. Qed.

Lemma preserves_for_each {X A : Type} (obs : World → X) (items : list A)
    (body : A → M unit) :
  (∀ x, preserves obs (body x)) → preserves obs (for_each items body).
Proof.
  intros Hbody. induction items as [|x rest IH]; simpl.
  - by intros w.
  - apply preserves_bind; [apply Hbody | by intros _].
Qed.

Lemma pure_first {A : Type} (l : list A) : pure (first l).
Proof. destruct l; [apply pure_raise | apply pure_return]. Qed.

Lemma pure_first_if_list j : pure (first_if_list j).
Proof. destruct j; try apply pure_return. apply pure_first. Qed.

Lemma pure_lift {A : Type} (o : outcome A) : pure (lift o).
Proof. by intros w. Qed.

Lemma pure_get_self : pure get_self.
Proof. by intros w. Qed.

Lemma pure_os_getenv name : pure (os_getenv name).
Proof. by intros w. Qed.

Lemma pure_os_path_exists path : pure (os_path_exists path).
Proof. by intros w. Qed.

Lemma pure_read_file path : pure (read_file path).
Proof. intros w. unfold read_file. by destruct (disk w !! path). Qed.

Lemma preserves_perform {X : Type} (obs : World → X) r :
  (∀ w l, obs (set_sent l w) = obs w) → preserves obs (perform r).
Proof.
  intros Hobs w. unfold perform.
  destruct (github w _); simpl; apply Hobs.
Qed.

Lemma preserves_print {X : Type} (obs : World → X) s :
  (∀ w l, obs (set_stdout l w) = obs w) → preserves obs (print s).
Proof. intros Hobs w. apply Hobs. Qed.

Lemma preserves_pprint {X : Type} (obs : World → X) j :
  (∀ w l, obs (set_stdout l w) = obs w) → preserves obs (pprint j).
Proof. intros Hobs w. apply Hobs. Qed.

Lemma preserves_assign {X V : Type} (obs : World → X) (setter : V → App → App)
    (v : V) :
  (∀ w, obs (set_self (setter v (self w)) w) = obs w) →
  preserves obs (assign setter v).
Proof. intros Hobs w. apply Hobs. Qed.

(** Stepping through a method body, one statement at a time. *)
Ltac frame_step :=
  first
    [ apply preserves_bind; [|intros ?]
    | apply preserves_for_each; intros ?
    | apply preserves_perform; done
    | apply preserves_print; done
    | apply preserves_pprint; done
    | apply preserves_assign; done
    | apply preserves_pure;
      first [ apply pure_return | apply pure_raise | apply pure_getitem
            | apply pure_hash_key | apply pure_iterate | apply pure_json_loads
            | apply pure_getContents_loop | apply pure_first
            | apply pure_first_if_list | apply pure_lift | apply pure_get_self
            | apply pure_os_getenv | apply pure_os_path_exists
            | apply pure_read_file ] ].

Ltac frame := repeat first [ frame_step | progress case_match ].

Lemma fixed___getBranches : preserves fixed_part __getBranches.
Proof. unfold __getBranches. frame. Qed.

Lemma fixed_getBranches : preserves fixed_part getBranches.
Proof. unfold getBranches. frame. Qed.

Lemma fixed_branchExist branch : preserves fixed_part (branchExist branch).
Proof. unfold branchExist. frame. Qed.

Lemma fixed_createBranch branch fork :
  preserves fixed_part (createBranch branch fork).
Proof. unfold createBranch. frame. Qed.

Lemma fixed_getContents branch : preserves fixed_part (getContents branch).
Proof. unfold getContents. frame. Qed.

Lemma fixed_upload `{Platform} file_name branch use_wiki :
  preserves fixed_part (upload file_name branch use_wiki).
Proof.
  unfold upload, unwrap, upload_image_override, upload_wiki, upload_repo,
    getWikiRepo.
  frame.
Qed.

Lemma fixed_postStatus state commit_sha :
  preserves fixed_part (postStatus state commit_sha).
Proof. unfold postStatus. frame. Qed.

Lemma fixed_getStatus : preserves fixed_part getStatus.
Proof. unfold getStatus. frame. Qed.

Lemma entries_unfold n :
  entries n =
    (length (files n) + length (misc n)
     + sum_list ((fun c => S (entries c)) <$> dirs n))%nat.
Proof.
  destruct n as [d ds fs ms rp]; simpl. f_equal.
  induction ds as [|c ds IH]; [done|]. simpl. by rewrite IH.
Qed.

Lemma sum_list_insert (l : list nat) i x y :
  l !! i = Some x → (sum_list (<[i := y]> l) + x = sum_list l + y)%nat.
Proof.
  revert i. induction l as [|z l IH]; intros [|i] Hi; simplify_eq/=; [lia|].
  specialize (IH i Hi). lia.
Qed.

Lemma insert_entries n content content_type :
  entries (insert n content content_type) = S (entries n).
Proof.
  rewrite !entries_unfold. unfold insert.
  destruct (String.eqb content_type "dir"); [|destruct (String.eqb content_type "file")];
    simpl; rewrite ?fmap_app, ?sum_list_with_app, ?length_app; simpl; lia.
Qed.

(** X1. Every insert on a node of the tree adds one entry to the tree, also
    when the same name is inserted again; an address that names no node adds
    none. *)
Theorem insert_at_entries (address : list nat) (content content_type : string) :
  ∀ root,
    entries (insert_at address content content_type root) =
      match descend address root with
      | Some _ => S (entries root)
      | None => entries root
      end.
Proof.
  induction address as [|i rest IH]; intros root; simpl.
  - apply insert_entries.
  - unfold getNodes. destruct (dirs root !! i) as [child|] eqn:Hi; [|done].
    specialize (IH child).
    rewrite !entries_unfold. simpl. rewrite list_fmap_insert.
    pose proof (sum_list_insert ((fun c => S (entries c)) <$> dirs root) i
                  (S (entries child))
                  (S (entries (insert_at rest content content_type child))))
      as Hsum.
    rewrite list_lookup_fmap, Hi in Hsum. specialize (Hsum eq_refl).
    destruct (descend rest child) as [[names n]|]; lia.
Qed.

(** X2. [printTree] prints one line for the node and one line for each entry
    below it. *)
Theorem printTree_length (n : Node) : length (printTree n) = S (entries n).
Proof.
  remember (depth n) as k eqn:Hk. revert n Hk.
  induction (lt_wf k) as [k _ IH]. intros n ->.
  assert (Hch : ∀ c, c ∈ dirs n → length (printTree c) = S (entries c)).
  { intros c Hc. eapply (IH (depth c)); [by apply depth_child|done]. }
  assert (Hsum : length (concat (map printTree (dirs n)))
                 = sum_list ((fun c => S (entries c)) <$> dirs n)).
  { induction (dirs n) as [|c ds IHds]; [done|]. simpl.
    rewrite length_app, Hch by apply list_elem_of_here.
    rewrite IHds; [done|].
    intros c' Hc'. apply Hch. by apply list_elem_of_further. }
  rewrite printTree_unfold, entries_unfold. simpl.
  rewrite !length_app, !length_map, Hsum. lia.
Qed.

Lemma insert_keeps n content content_type :
  dir (insert n content content_type) = dir n
  ∧ rel_path (insert n content content_type) = rel_path n
  ∧ files n `prefix_of` files (insert n content content_type)
  ∧ dirs n `prefix_of` dirs (insert n content content_type).
Proof.
  unfold insert.
  destruct (String.eqb content_type "dir"); [|destruct (String.eqb content_type "file")];
    simpl; repeat split; try done; by apply prefix_app_r.
Qed.

(** X3. An insert anywhere in the tree leaves every node that was there at
    its address, with its name, its path and the names on the way to it; the
    files it had stay the first of its files. *)
Theorem insert_at_keeps_nodes (where_ address : list nat)
    (content content_type : string) :
  ∀ root names n,
    descend address root = Some (names, n) →
    ∃ n', descend address (insert_at where_ content content_type root)
            = Some (names, n')
          ∧ dir n' = dir n ∧ getPath n' = getPath n
          ∧ files n `prefix_of` files n'.
Proof.
  revert address.
  induction where_ as [|i rest IH]; intros address root names n Hd.
  - simpl. destruct (insert_keeps root content content_type)
      as (Hdir & Hpath & Hfiles & Hdirs).
    destruct address as [|j q]; simpl in *.
    + injection Hd as <- <-. eexists. split; [done|]. by repeat split.
    + unfold getNodes in *.
      destruct (dirs root !! j) as [child|] eqn:Hj; [|done].
      rewrite (prefix_lookup_Some _ _ _ _ Hj Hdirs), Hdir.
      destruct (descend q child) as [[names' n']|]; [|done].
      injection Hd as <- <-. by exists n'.
  - simpl. unfold getNodes.
    destruct (dirs root !! i) as [child|] eqn:Hi; [|by exists n].
    destruct address as [|j q]; simpl in *.
    + injection Hd as <- <-. eexists. split; [done|]. by repeat split.
    + unfold getNodes in *.
      destruct (dirs root !! j) as [cj|] eqn:Hj; [|done].
      destruct (descend q cj) as [[names' n']|] eqn:Hq; [|done].
      injection Hd as <- <-.
      destruct (decide (i = j)) as [->|Hne].
      * rewrite list_lookup_insert_eq by by eapply lookup_lt_Some.
        assert (cj = child) as -> by congruence.
        destruct (IH q child names' n' Hq) as (n'' & -> & ?).
        by exists n''.
      * rewrite list_lookup_insert_ne by done. rewrite Hj, Hq. by exists n'.
Qed.

Lemma insert_at_keeps_nodes_witness :
  descend [0%nat] (insert_at [] "a" "dir" Node_default)
    = Some ([""], Node_init "a" "/") ∧
  ∃ n', descend [0%nat] example_nested = Some ([""], n')
        ∧ dir n' = "a" ∧ getPath n' = "/a".
Proof.
  split; [reflexivity|].
  destruct (insert_at_keeps_nodes [0%nat] [0%nat] "b" "dir"
              (insert_at [] "a" "dir" Node_default) [""] (Node_init "a" "/")
              eq_refl) as (n' & Hd & Hdir & Hpath & _).
  exists n'. split; [exact Hd|]. split; [exact Hdir | exact Hpath].
Defined.

(** X4. In a tree built from [Node()], the path of every node other than the
    root starts with a slash. *)
Theorem built_paths_start_with_slash (root : Node) (i : nat) (rest : list nat)
    (names : list string) (n : Node) :
  built root →
  descend (i :: rest) root = Some (names, n) →
  String.prefix "/" (getPath n) = true.
Proof.
  intros Hb Hd. destruct (built_paths_ok root Hb) as [Hok Hdir].
  unfold getPath. rewrite (descend_path _ "" _ _ _ Hok Hd).
  simpl in Hd. unfold getNodes in Hd.
  destruct (dirs root !! i) as [child|]; [|done].
  destruct (descend rest child) as [[names' n']|]; [|done].
  injection Hd as <- <-. rewrite Hdir.
  destruct names' as [|y l]; simpl app; rewrite concat_slash_cons;
    rewrite !append_nil_l; apply (prefix_append "/").
Qed.

Lemma built_paths_start_with_slash_witness :
  built example_nested ∧
  descend [0%nat; 0%nat] example_nested = Some ([""; "a"], Node_init "b" "/a/") ∧
  String.prefix "/" (getPath (Node_init "b" "/a/")) = true.
Proof.
  assert (Hb : built example_nested)
    by (do 2 apply built_insert; apply built_root).
  split; [exact Hb|]. split; [reflexivity|].
  exact (built_paths_start_with_slash example_nested 0 [0%nat] _ _ Hb eq_refl).
Defined.

Lemma endswith_inv (s suffix : string) :
  endswith s suffix = true → ∃ pre, s = pre +:+ suffix.
Proof.
  induction s as [|c s IH]; unfold endswith; fold endswith; intros Hs.
  - rewrite orb_false_r in Hs. apply String.eqb_eq in Hs as <-. by exists "".
  - apply orb_true_iff in Hs as [Hs|Hs].
    + apply String.eqb_eq in Hs as <-. by exists "".
    + destruct (IH Hs) as [pre ->]. by exists (String c pre).
Qed.

(** X5. The image test of [upload] holds exactly for the names whose
    lower-case form ends in one of the six suffixes, dot included. *)
Theorem image_test_iff (file_name : string) :
  endswith_any (lower file_name) image_suffixes = true ↔
  ∃ stem suffix,
    suffix ∈ [".png"; ".jpg"; ".jpeg"; ".tiff"; ".bmp"; ".gif"]
    ∧ lower file_name = stem +:+ suffix.
Proof.
  unfold endswith_any. rewrite existsb_exists. split.
  - intros (suffix & Hin & Hend). apply endswith_inv in Hend as [stem Hstem].
    exists stem, suffix. split; [by apply list_elem_of_In | done].
  - intros (stem & suffix & Hin & Heq). exists suffix.
    split; [by apply list_elem_of_In|]. rewrite Heq. apply endswith_append.
Qed.

Lemma has_slash_append (a b : string) :
  has_slash (a +:+ b) = has_slash a || has_slash b.
Proof.
  induction a as [|c a IH]; [done|].
  rewrite append_cons. simpl. by rewrite IH, orb_assoc.
Qed.

Lemma after_last_slash_no_slash (s : string) :
  has_slash s = false → after_last_slash s = s.
Proof.
  destruct s as [|c s]; [done|]. simpl.
  intros [Hc Hs]%orb_false_iff. by rewrite Hs, Hc.
Qed.

(** X6. [after_last_slash], the [rsplit('/', 1)[-1]] of the installation id:
    of a string with a slash it gives what follows the last one, a string
    without slash it gives back, and its result never has a slash. *)
Theorem after_last_slash_spec (a b : string) :
  has_slash b = false →
  after_last_slash (a +:+ "/" +:+ b) = b
  ∧ after_last_slash b = b
  ∧ ∀ s, has_slash (after_last_slash s) = false.
Proof.
  intros Hb. split; [|split].
  - induction a as [|c a IH].
    + rewrite append_nil_l, append_cons, append_nil_l. simpl. by rewrite Hb.
    + rewrite append_cons. simpl.
      rewrite has_slash_append, has_slash_append. simpl.
      by rewrite orb_true_r.
  - by apply after_last_slash_no_slash.
  - intros s. induction s as [|c s IH]; [done|]. simpl.
    destruct (has_slash s) eqn:Hs; [done|].
    destruct (Ascii.eqb c "/") eqn:Hc; [done|]. simpl. by rewrite Hc.
Qed.

Lemma after_last_slash_spec_witness :
  has_slash "42" = false ∧
  after_last_slash ("https://github.com/settings/installations" +:+ "/" +:+ "42")
    = "42".
Proof.
  split; [reflexivity|].
  exact (proj1 (after_last_slash_spec
                  "https://github.com/settings/installations" "42" eq_refl)).
Defined.

Lemma prefix_iff (sub s : string) :
  String.prefix sub s = true ↔ ∃ post, s = sub +:+ post.
Proof.
  revert s. induction sub as [|c sub IH]; intros s.
  - split; [intros _; by exists s | by destruct s].
  - destruct s as [|d s]; simpl.
    + split; [done | by intros [post Hpost]].
    + destruct (ascii_dec c d) as [->|Hne].
      * rewrite IH. split; intros [post Hpost]; exists post.
        -- by rewrite append_cons, Hpost.
        -- rewrite append_cons in Hpost. by injection Hpost.
      * split; [done|]. intros [post Hpost]. rewrite append_cons in Hpost.
        by injection Hpost as ->.
Qed.

Lemma occurs_at_0 (sub s : string) :
  occurs_at 0 sub s ↔ String.prefix sub s = true.
Proof.
  rewrite prefix_iff. split.
  - intros (pre & post & -> & Hlen). destruct pre; [|done]. by exists post.
  - intros [post ->]. by exists "", post.
Qed.

Lemma occurs_at_S (k : nat) (sub : string) (c : ascii) (s : string) :
  occurs_at (S k) sub (String c s) ↔ occurs_at k sub s.
Proof.
  split.
  - intros (pre & post & Heq & Hlen). destruct pre as [|d pre]; [done|].
    rewrite append_cons in Heq. injection Heq as -> ->. injection Hlen as Hlen.
    by exists pre, post.
  - intros (pre & post & -> & Hlen). exists (String c pre), post.
    split; [done|]. simpl. by rewrite Hlen.
Qed.

Lemma occurs_at_empty (k : nat) (sub : string) :
  occurs_at k sub "" → k = 0%nat.
Proof. intros (pre & post & Heq & Hlen). by destruct pre. Qed.

Lemma rindex_from_spec (sub : string) :
  ∀ s i,
    match rindex_from i s sub with
    | Some j => ∃ k, j = (i + k)%nat ∧ occurs_at k sub s
                     ∧ ∀ k', occurs_at k' sub s → (k' ≤ k)%nat
    | None => ∀ k, ¬ occurs_at k sub s
    end.
Proof.
  induction s as [|c s IH]; intros i; cbn [rindex_from].
  - destruct (String.prefix sub "") eqn:Hp.
    + exists 0%nat. split; [lia|]. split; [by apply occurs_at_0|].
      intros k' Hk'. apply occurs_at_empty in Hk'. lia.
    + intros k Hk. pose proof (occurs_at_empty _ _ Hk) as ->.
      apply occurs_at_0 in Hk. congruence.
  - specialize (IH (S i)). destruct (rindex_from (S i) s sub) as [j|].
    + destruct IH as (k & -> & Hocc & Hmax). exists (S k).
      split; [lia|]. split; [by apply occurs_at_S|].
      intros [|k'] Hk'; [lia|]. apply occurs_at_S in Hk'.
      specialize (Hmax _ Hk'). lia.
    + destruct (String.prefix sub (String c s)) eqn:Hp.
      * exists 0%nat. split; [lia|]. split; [by apply occurs_at_0|].
        intros [|k'] Hk'; [lia|]. apply occurs_at_S in Hk'. by apply IH in Hk'.
      * intros [|k] Hk.
        -- apply occurs_at_0 in Hk. congruence.
        -- apply occurs_at_S in Hk. by apply IH in Hk.
Qed.

(** X7. [rindex], the [str.rindex] that locates the repository name in the
    path of the script: it gives the highest position at which the name
    occurs, and nothing (ValueError) exactly when the name does not occur. *)
Theorem rindex_spec (s sub : string) :
  match rindex s sub with
  | Some j => occurs_at j sub s ∧ ∀ k, occurs_at k sub s → (k ≤ j)%nat
  | None => ∀ k, ¬ occurs_at k sub s
  end.
Proof.
  unfold rindex. pose proof (rindex_from_spec sub s 0) as Hspec.
  destruct (rindex_from 0 s sub) as [j|]; [|done].
  by destruct Hspec as (k & -> & Hocc & Hmax).
Qed.

Lemma perform_answered r w :
  github w (sent w ++ [r]) ≠ NoAnswer →
  perform r w = (Returned (github w (sent w ++ [r])), set_sent (sent w ++ [r]) w).
Proof. intros Hanswer. unfold perform. simpl. by destruct (github w _). Qed.

Lemma perform_unanswered r w :
  github w (sent w ++ [r]) = NoAnswer →
  perform r w = (Raised PycurlError, set_sent (sent w ++ [r]) w).
Proof. intros Hanswer. unfold perform. simpl. by rewrite Hanswer. Qed.

Lemma getitem_dict fields key v w :
  fields !! key = Some v → getitem (JDict fields) key w = (Returned v, w).
Proof. intros Hv. unfold getitem. by rewrite Hv. Qed.

Lemma __getBranches_body_entry entry j branches shas w :
  branch_object entry j →
  __getBranches_body j (with_cache branches shas w) =
    (Returned (),
     with_cache (branches ++ [JStr (fst entry)])
       (<[KStr (fst entry) := snd entry]> shas) w).
Proof.
  intros (fields & commit & -> & Hname & Hcommit & Hsha).
  unfold __getBranches_body.
  rewrite (bind_returned _ _ _ _ _ (getitem_dict _ _ _ _ Hname)).
  rewrite (bind_returned get_self _ _ _ _ eq_refl).
  rewrite (bind_returned (assign _ _) _ _ () _ eq_refl).
  rewrite (bind_returned _ _ _ _ _ (getitem_dict _ _ _ _ Hname)).
  rewrite (bind_returned _ _ _ _ _ (getitem_dict _ _ _ _ Hcommit)).
  rewrite (bind_returned _ _ _ _ _ (getitem_dict _ _ _ _ Hsha)).
  rewrite (bind_returned (hash_key (JStr (fst entry))) _ _
             (KStr (fst entry)) _ eq_refl).
  by rewrite (bind_returned get_self _ _ _ _ eq_refl).
Qed.

Lemma __getBranches_loop listing :
  ∀ items branches shas w,
    Forall2 branch_object listing items →
    for_each items __getBranches_body (with_cache branches shas w) =
      (Returned (),
       with_cache (branches ++ (JStr ∘ fst <$> listing))
         (record_shas shas listing) w).
Proof.
  induction listing as [|entry listing IH]; intros items branches shas w Hall.
  - apply Forall2_nil_inv_l in Hall as ->. simpl. by rewrite app_nil_r.
  - apply Forall2_cons_inv_l in Hall as (j & items' & Hj & Hall & ->).
    simpl for_each.
    rewrite (bind_returned _ _ _ _ _
               (__getBranches_body_entry entry j branches shas w Hj)).
    rewrite (IH _ _ _ _ Hall). simpl. by rewrite <- app_assoc.
Qed.

Lemma __getBranches_listing w items listing :
  github w (sent w ++ [branches_request (self w)]) = Body (JList items) →
  Forall2 branch_object listing items →
  __getBranches w =
    (Returned (),
     with_cache (JStr ∘ fst <$> listing) (record_shas ∅ listing)
       (set_sent (sent w ++ [branches_request (self w)]) w)).
Proof.
  intros Hanswer Hall. unfold __getBranches.
  rewrite (bind_returned get_self _ w (self w) w eq_refl).
  fold (branches_request (self w)).
  unfold mbind at 1, M_bind at 1, perform at 1. simpl sent. rewrite Hanswer.
  unfold mbind, M_bind, json_loads, return_, mret, M_ret, assign, iterate.
  simpl.
  exact (__getBranches_loop listing items [] ∅
           (set_sent (sent w ++ [branches_request (self w)]) w) Hall).
Qed.

(** X8. When the remote answers the live query with a list of well-formed
    entries, [refreshBranchCache] returns, having sent that one request, and
    the cache holds the names in the order of the listing, each with the sha
    of its last entry; whatever was cached before is gone. *)
Theorem refreshBranchCache_listing (w : World) (items : list json)
    (listing : list (string * json)) :
  github w (sent w ++ [branches_request (self w)]) = Body (JList items) →
  Forall2 branch_object listing items →
  refreshBranchCache w =
    (Returned (),
     with_cache (JStr ∘ fst <$> listing) (record_shas ∅ listing)
       (set_sent (sent w ++ [branches_request (self w)]) w)).
Proof. apply __getBranches_listing. Qed.

Lemma refreshBranchCache_listing_witness :
  github example_cached (sent example_cached ++ [branches_request (self example_cached)])
    = Body (JList [example_branch "develop" "c0ffee"; example_branch "figures" "f19"]) ∧
  Forall2 branch_object [("develop", JStr "c0ffee"); ("figures", JStr "f19")]
    [example_branch "develop" "c0ffee"; example_branch "figures" "f19"] ∧
  __branches (self (snd (refreshBranchCache example_cached)))
    = [JStr "develop"; JStr "figures"].
Proof.
  assert (Hanswer :
    github example_cached
      (sent example_cached ++ [branches_request (self example_cached)])
    = Body (JList [example_branch "develop" "c0ffee";
                   example_branch "figures" "f19"]))
    by (vm_compute; reflexivity).
  assert (Hall : Forall2 branch_object
                   [("develop", JStr "c0ffee"); ("figures", JStr "f19")]
                   [example_branch "develop" "c0ffee";
                    example_branch "figures" "f19"]).
  { repeat constructor; eexists _, _; (split; [reflexivity|]);
      repeat split; reflexivity. }
  split; [exact Hanswer|]. split; [exact Hall|].
  by rewrite (refreshBranchCache_listing example_cached _ _ Hanswer Hall).
Defined.

(** X9. When the live query gets no answer, or an answer that is not JSON,
    [refreshBranchCache] raises and the cache is what it was: only the
    request is added to what was sent. *)
Theorem refreshBranchCache_failure_keeps_cache (w : World) :
  let r := branches_request (self w) in
  match github w (sent w ++ [r]) with
  | NoAnswer =>
      refreshBranchCache w = (Raised PycurlError, set_sent (sent w ++ [r]) w)
  | NotJson =>
      refreshBranchCache w = (Raised JSONDecodeError, set_sent (sent w ++ [r]) w)
  | Body _ => True
  end.
Proof.
  intros r. unfold refreshBranchCache, __getBranches.
  rewrite (bind_returned get_self _ w (self w) w eq_refl).
  fold (branches_request (self w)). fold r.
  destruct (github w (sent w ++ [r])) eqn:Hanswer; [done| |].
  - rewrite (bind_returned _ _ _ _ _ (perform_answered r w ltac:(by rewrite Hanswer))).
    by rewrite Hanswer.
  - by rewrite (bind_raised _ _ _ _ _ (perform_unanswered r w Hanswer)).
Qed.

(** X10. When the remote answers the live query with a JSON object that has
    at least one field, as GitHub does for an error,
    [refreshBranchCache] raises TypeError and leaves the cache empty. *)
Theorem refreshBranchCache_object_wipes_cache (w : World)
    (fields : gmap string json) :
  github w (sent w ++ [branches_request (self w)]) = Body (JDict fields) →
  fields ≠ ∅ →
  refreshBranchCache w =
    (Raised TypeError,
     with_cache [] ∅ (set_sent (sent w ++ [branches_request (self w)]) w)).
Proof.
  intros Hanswer Hne. unfold refreshBranchCache, __getBranches.
  rewrite (bind_returned get_self _ w (self w) w eq_refl).
  fold (branches_request (self w)).
  unfold mbind at 1, M_bind at 1, perform at 1. simpl sent. rewrite Hanswer.
  unfold mbind, M_bind, json_loads, return_, mret, M_ret, assign, iterate.
  simpl.
  destruct (map_to_list fields) as [|[k v] rest] eqn:Hlist.
  - by apply map_to_list_empty_iff in Hlist.
  - done.
Qed.

Lemma refreshBranchCache_object_wipes_cache_witness :
  github example_rejected
      (sent example_rejected ++ [branches_request (self example_rejected)])
    = Body (JDict {[ "message" := JStr "Bad credentials" ]}) ∧
  ({[ "message" := JStr "Bad credentials" ]} : gmap string json) ≠ ∅ ∧
  fst (refreshBranchCache example_rejected) = Raised TypeError ∧
  __branches (self (snd (refreshBranchCache example_rejected))) = [].
Proof.
  assert (Hne : ({[ "message" := JStr "Bad credentials" ]} : gmap string json) ≠ ∅)
    by apply insert_non_empty.
  split; [reflexivity|]. split; [exact Hne|].
  by rewrite (refreshBranchCache_object_wipes_cache example_rejected _ eq_refl Hne).
Defined.

Lemma str_in_not_elem_of s l : JStr s ∉ l → str_in s l = false.
Proof.
  intros Hnot. destruct (str_in s l) eqn:Hin; [|done].
  by apply str_in_elem_of in Hin.
Qed.

Lemma branchExist_absent branch w :
  __branches (self w) ≠ [] → JStr branch ∉ __branches (self w) →
  branchExist branch w = (Returned false, w).
Proof.
  intros Hne Hnot. rewrite branchExist_cached by done.
  by rewrite str_in_not_elem_of.
Qed.

(** X11. [createBranch] for a branch that is not in the cache, from a branch
    that is in it with its sha: the one request sent is the POST of the ref
    "refs/heads/<branch>" at that sha, and the call returns unless the
    request gets no answer. The cache is not updated: right after,
    [branchExist(branch)] still answers no, without asking the remote. *)
Theorem createBranch_posts_ref (w : World) (branch fork : string) (sha : json) :
  let r := ref_request (self w) branch sha in
  let w' := set_sent (sent w ++ [r]) w in
  JStr branch ∉ __branches (self w) →
  JStr fork ∈ __branches (self w) →
  __branch_current_commit_sha (self w) !! KStr fork = Some sha →
  createBranch branch (Some fork) w =
    (match github w (sent w ++ [r]) with
     | NoAnswer => Raised PycurlError
     | _ => Returned ()
     end, w')
  ∧ branchExist branch w' = (Returned false, w').
Proof.
  intros r w' Hnot Hin Hsha.
  assert (Hne : __branches (self w) ≠ []).
  { intros Hnil. rewrite Hnil in Hin. by apply elem_of_nil in Hin. }
  split; [|by apply branchExist_absent].
  unfold createBranch.
  rewrite (bind_returned get_self _ w (self w) w eq_refl). simpl default.
  rewrite (bind_returned _ _ _ _ _ (branchExist_absent branch w Hne Hnot)).
  rewrite (bind_returned _ _ _ _ _ (branchExist_member fork w Hin)). simpl.
  rewrite (bind_returned get_self _ w (self w) w eq_refl). rewrite Hsha.
  rewrite (bind_returned (return_ sha) _ w sha w eq_refl).
  fold (ref_request (self w) branch sha). fold r.
  unfold mbind, M_bind, perform. simpl sent. fold w'.
  by destruct (github w (sent w ++ [r])).
Qed.

Lemma createBranch_posts_ref_witness :
  (JStr "x" ∉ __branches (self example_cached)) ∧
  (JStr "develop" ∈ __branches (self example_cached)) ∧
  __branch_current_commit_sha (self example_cached) !! KStr "develop"
    = Some (JStr "c0ffee") ∧
  createBranch "x" (Some "develop") example_cached =
    (Returned (),
     set_sent (sent example_cached
                 ++ [ref_request (self example_cached) "x" (JStr "c0ffee")])
       example_cached).
Proof.
  assert (Hcache : __branches (self example_cached)
                   = [JStr "develop"; JStr "figures"])
    by (vm_compute; reflexivity).
  assert (Hnot : JStr "x" ∉ __branches (self example_cached)).
  { rewrite Hcache. intros Hx.
    repeat (apply elem_of_cons in Hx as [Hx|Hx]; [discriminate|]).
    by apply elem_of_nil in Hx. }
  assert (Hin : JStr "develop" ∈ __branches (self example_cached))
    by (rewrite Hcache; apply list_elem_of_here).
  assert (Hsha : __branch_current_commit_sha (self example_cached)
                   !! KStr "develop" = Some (JStr "c0ffee"))
    by (vm_compute; reflexivity).
  split; [exact Hnot|]. split; [exact Hin|]. split; [exact Hsha|].
  exact (proj1 (createBranch_posts_ref example_cached "x" "develop"
                  (JStr "c0ffee") Hnot Hin Hsha)).
Defined.

Lemma getBranches_fetches w items listing :
  __branches (self w) = [] →
  github w (sent w ++ [branches_request (self w)]) = Body (JList items) →
  Forall2 branch_object listing items →
  getBranches w =
    (Returned (JStr ∘ fst <$> listing),
     with_cache (JStr ∘ fst <$> listing) (record_shas ∅ listing)
       (set_sent (sent w ++ [branches_request (self w)]) w)).
Proof.
  intros Hempty Hanswer Hall. unfold getBranches.
  rewrite (bind_returned get_self _ w (self w) w eq_refl). rewrite Hempty.
  rewrite (bind_returned _ _ _ _ _
             (__getBranches_listing w items listing Hanswer Hall)).
  by rewrite (bind_returned get_self _ _ _ _ eq_refl).
Qed.

(** X12. With an empty cache and a well-formed listing from the remote,
    [branchExist(branch)] fetches the listing, fills the cache with it and
    answers yes exactly when the branch is one of the names listed; on an
    empty listing the cache stays empty, so that the next call asks again. *)
Theorem branchExist_fetches (w : World) (branch : string) (items : list json)
    (listing : list (string * json)) :
  __branches (self w) = [] →
  github w (sent w ++ [branches_request (self w)]) = Body (JList items) →
  Forall2 branch_object listing items →
  branchExist branch w =
    (Returned (bool_decide (branch ∈ fst <$> listing)),
     with_cache (JStr ∘ fst <$> listing) (record_shas ∅ listing)
       (set_sent (sent w ++ [branches_request (self w)]) w)).
Proof.
  intros Hempty Hanswer Hall. unfold branchExist.
  rewrite (bind_returned _ _ _ _ _
             (getBranches_fetches w items listing Hempty Hanswer Hall)).
  assert (Hiff : str_in branch (JStr ∘ fst <$> listing)
                 = bool_decide (branch ∈ fst <$> listing)).
  { destruct (str_in branch (JStr ∘ fst <$> listing)) eqn:Hin; symmetry.
    - apply bool_decide_eq_true. apply str_in_elem_of in Hin.
      apply list_elem_of_fmap in Hin as (entry & Heq & Hentry).
      injection Heq as ->. by apply list_elem_of_fmap_2.
    - apply bool_decide_eq_false. intros Hb.
      apply list_elem_of_fmap in Hb as (entry & -> & Hentry).
      assert (str_in (fst entry) (JStr ∘ fst <$> listing) = true); [|congruence].
      apply str_in_elem_of.
      by apply (list_elem_of_fmap_2 (JStr ∘ fst)). }
  rewrite Hiff. by destruct (bool_decide _).
Qed.

Lemma branchExist_fetches_witness :
  __branches (self example_ready) = [] ∧
  branchExist "figures" example_ready = (Returned true, example_cached).
Proof.
  assert (Hempty : __branches (self example_ready) = [])
    by (vm_compute; reflexivity).
  assert (Hanswer :
    github example_ready
      (sent example_ready ++ [branches_request (self example_ready)])
    = Body (JList [example_branch "develop" "c0ffee";
                   example_branch "figures" "f19"]))
    by (vm_compute; reflexivity).
  assert (Hall : Forall2 branch_object
                   [("develop", JStr "c0ffee"); ("figures", JStr "f19")]
                   [example_branch "develop" "c0ffee";
                    example_branch "figures" "f19"]).
  { repeat constructor; eexists _, _; (split; [reflexivity|]);
      repeat split; reflexivity. }
  split; [exact Hempty|].
  rewrite (branchExist_fetches example_ready "figures" _ _ Hempty Hanswer Hall).
  vm_compute. reflexivity.
Defined.

Lemma getContents_loop_listing listing :
  ∀ items contents w,
    Forall2 contents_object listing items →
    getContents_loop items contents w =
      (Returned (record_contents contents listing), w).
Proof.
  induction listing as [|entry listing IH]; intros items contents w Hall.
  - by apply Forall2_nil_inv_l in Hall as ->.
  - apply Forall2_cons_inv_l in Hall as (j & items' & Hj & Hall & ->).
    destruct Hj as (fields & -> & Hname & Hsha). simpl getContents_loop.
    rewrite (bind_returned _ _ _ _ _ (getitem_dict _ _ _ _ Hsha)).
    rewrite (bind_returned _ _ _ _ _ (getitem_dict _ _ _ _ Hname)).
    rewrite (bind_returned (hash_key (JStr (fst entry))) _ _
               (KStr (fst entry)) _ eq_refl).
    by rewrite (IH _ _ _ Hall).
Qed.

Lemma getContents_sent branch w :
  snd (getContents branch w) =
    set_sent (sent w ++ [contents_request (self w)
                           (default (__default_branch (self w)) branch)]) w.
Proof.
  unfold getContents.
  rewrite (bind_returned get_self _ w (self w) w eq_refl).
  fold (contents_request (self w) (default (__default_branch (self w)) branch)).
  set (r := contents_request _ _).
  destruct (github w (sent w ++ [r])) eqn:Hanswer.
  - rewrite (bind_returned _ _ _ _ _
               (perform_answered r w ltac:(by rewrite Hanswer))).
    rewrite Hanswer. unfold mbind, M_bind, json_loads, return_, mret, M_ret.
    destruct j; try done. apply pure_getContents_loop.
  - rewrite (bind_returned _ _ _ _ _
               (perform_answered r w ltac:(by rewrite Hanswer))).
    by rewrite Hanswer.
  - by rewrite (bind_raised _ _ _ _ _ (perform_unanswered r w Hanswer)).
Qed.

(** X13. Whatever the remote answers, [getContents] sends its one GET request
    and changes nothing else in the world; an answer that is JSON but not a
    list gives the empty mapping. *)
Theorem getContents_sends_once (w : World) (branch : option string) :
  let r := contents_request (self w)
             (default (__default_branch (self w)) branch) in
  snd (getContents branch w) = set_sent (sent w ++ [r]) w
  ∧ ∀ j, github w (sent w ++ [r]) = Body j →
         (∀ items, j ≠ JList items) →
         fst (getContents branch w) = Returned ∅.
Proof.
  intros r. split; [apply getContents_sent|].
  intros j Hanswer Hnot. unfold getContents.
  rewrite (bind_returned get_self _ w (self w) w eq_refl).
  fold (contents_request (self w) (default (__default_branch (self w)) branch)).
  fold r.
  rewrite (bind_returned _ _ _ _ _
             (perform_answered r w ltac:(by rewrite Hanswer))).
  rewrite Hanswer. unfold mbind, M_bind, json_loads, return_, mret, M_ret.
  destruct j; try done. by destruct (Hnot items).
Qed.

(** X14. When the remote answers with a list of well-formed entries,
    [getContents] returns the mapping from each name to the sha of its last
    entry. *)
Theorem getContents_listing (w : World) (branch : option string)
    (items : list json) (listing : list (string * json)) :
  let r := contents_request (self w)
             (default (__default_branch (self w)) branch) in
  github w (sent w ++ [r]) = Body (JList items) →
  Forall2 contents_object listing items →
  getContents branch w =
    (Returned (record_contents ∅ listing), set_sent (sent w ++ [r]) w).
Proof.
  intros r Hanswer Hall. unfold getContents.
  rewrite (bind_returned get_self _ w (self w) w eq_refl).
  fold (contents_request (self w) (default (__default_branch (self w)) branch)).
  fold r.
  rewrite (bind_returned _ _ _ _ _
             (perform_answered r w ltac:(by rewrite Hanswer))).
  rewrite Hanswer.
  rewrite (bind_returned (json_loads (Body (JList items))) _ _ (JList items)
             _ eq_refl).
  by apply getContents_loop_listing.
Qed.

Lemma getContents_listing_witness :
  github example_cached
      (sent example_cached ++ [contents_request (self example_cached) "develop"])
    = Body (JList [example_entry "chart.png" "a1"; example_entry "README.md" "b2"]) ∧
  Forall2 contents_object [("chart.png", JStr "a1"); ("README.md", JStr "b2")]
    [example_entry "chart.png" "a1"; example_entry "README.md" "b2"] ∧
  fst (getContents None example_cached) =
    Returned {[ KStr "chart.png" := JStr "a1"; KStr "README.md" := JStr "b2" ]}.
Proof.
  assert (Hanswer :
    github example_cached
      (sent example_cached
         ++ [contents_request (self example_cached)
               (default (__default_branch (self example_cached)) None)])
    = Body (JList [example_entry "chart.png" "a1";
                   example_entry "README.md" "b2"]))
    by (vm_compute; reflexivity).
  assert (Hall : Forall2 contents_object
                   [("chart.png", JStr "a1"); ("README.md", JStr "b2")]
                   [example_entry "chart.png" "a1";
                    example_entry "README.md" "b2"]).
  { repeat constructor; eexists; (split; [reflexivity|]); split; reflexivity. }
  split; [vm_compute; reflexivity|]. split; [exact Hall|].
  rewrite (getContents_listing example_cached None _ _ Hanswer Hall).
  vm_compute. reflexivity.
Defined.

(** X15. An upload outside wiki mode, without the create flag, to a branch that
    is not in the filled cache raises the "does not exist" exception right
    after the image override: nothing is sent. The branch meant is the one
    the override leaves, so an image fails for want of the image branch even
    when the branch asked for exists. *)
Theorem upload_missing_branch `{Platform} (w w1 : World) (file_arg : arg string)
    (file_name : string) (branch : option string) (target : string) :
  unwrapped file_arg = Returned file_name →
  upload_image_override file_name
    (default (__default_branch (self w)) branch) w = (Returned target, w1) →
  __use_wiki (self w1) = false →
  __create_branch (self w1) = false →
  __branches (self w1) ≠ [] →
  JStr target ∉ __branches (self w1) →
  upload file_arg branch false w =
    (Raised (Exception
       ("branch: " +:+ target +:+ " does not exist in repository.")), w1).
Proof.
  intros Harg Hover Hwiki Hcreate Hne Hnot.
  rewrite (upload_unfold _ _ _ _ _ Harg).
  rewrite (bind_returned _ _ _ _ _ Hover).
  rewrite (bind_returned get_self _ _ _ _ eq_refl).
  rewrite Hwiki. simpl. unfold upload_repo.
  rewrite (bind_returned get_self _ _ _ _ eq_refl). rewrite Hcreate.
  erewrite bind_raised; [done|].
  by rewrite (bind_returned _ _ _ _ _ (branchExist_absent target w1 Hne Hnot)).
Qed.

Lemma upload_missing_branch_witness :
  upload_image_override "chart.png" "develop" example_no_figures
    = (Returned "figures", image_redirected example_no_figures) ∧
  (JStr "develop" ∈ __branches (self example_no_figures)) ∧
  upload (H := example_platform) (One "chart.png") (Some "develop") false
      example_no_figures =
    (Raised (Exception "branch: figures does not exist in repository."),
     image_redirected example_no_figures).
Proof.
  assert (Hover : upload_image_override "chart.png"
                    (default (__default_branch (self example_no_figures))
                       (Some "develop")) example_no_figures
                  = (Returned "figures", image_redirected example_no_figures))
    by (vm_compute; reflexivity).
  assert (Hcache : __branches (self (image_redirected example_no_figures))
                   = [JStr "develop"]) by (vm_compute; reflexivity).
  split; [exact Hover|]. split; [vm_compute; apply list_elem_of_here|].
  apply (upload_missing_branch (H := example_platform) example_no_figures
           (image_redirected example_no_figures) (One "chart.png") "chart.png"
           (Some "develop") "figures" eq_refl Hover).
  - vm_compute; reflexivity.
  - vm_compute; reflexivity.
  - by rewrite Hcache.
  - rewrite Hcache. intros Hx.
    apply elem_of_cons in Hx as [Hx|Hx]; [discriminate|].
    by apply elem_of_nil in Hx.
Defined.

(** X16. An upload outside wiki mode of a file that is not on disk raises
    FileNotFoundError after the listing of the branch has been requested: the
    GET of [getContents] is sent, no PUT follows. *)
Theorem upload_missing_file `{Platform} (w w1 w2 : World) (file_arg : arg string)
    (file_name : string) (branch : option string) (target : string)
    (contents : gmap pykey json) :
  unwrapped file_arg = Returned file_name →
  upload_image_override file_name
    (default (__default_branch (self w)) branch) w = (Returned target, w1) →
  __use_wiki (self w1) = false →
  JStr target ∈ __branches (self w1) →
  getContents (Some target) w1 = (Returned contents, w2) →
  disk w1 !! file_name = None →
  upload file_arg branch false w = (Raised (FileNotFoundError file_name), w2)
  ∧ sent w2 = sent w1 ++ [contents_request (self w1) target].
Proof.
  intros Harg Hover Hwiki Hin Hget Hdisk.
  pose proof (getContents_sent (Some target) w1) as Hw2.
  rewrite Hget in Hw2. simpl in Hw2. split; [|by rewrite Hw2].
  rewrite (upload_unfold _ _ _ _ _ Harg).
  rewrite (bind_returned _ _ _ _ _ Hover).
  rewrite (bind_returned get_self _ _ _ _ eq_refl).
  rewrite Hwiki. simpl. unfold upload_repo.
  rewrite (bind_returned get_self _ _ _ _ eq_refl).
  assert (Hcheck :
    (if __create_branch (self w1) then createBranch target None
     else present ← branchExist target;
          if negb present
          then raise (Exception ("branch: " +:+ target
                                   +:+ " does not exist in repository."))
          else return_ ()) w1 = (Returned (), w1)).
  { destruct (__create_branch (self w1)).
    - by apply createBranch_member.
    - by rewrite (bind_returned _ _ _ _ _ (branchExist_member target w1 Hin)). }
  rewrite (bind_returned _ _ _ _ _ Hcheck).
  rewrite (bind_returned _ _ _ _ _ Hget).
  erewrite bind_raised; [done|].
  unfold read_file. rewrite Hw2. simpl. by rewrite Hdisk.
Qed.

Lemma upload_missing_file_witness :
  upload_image_override "notes.txt" "develop" example_cached
    = (Returned "develop", example_cached) ∧
  disk example_cached !! "notes.txt" = None ∧
  upload (H := example_platform) (One "notes.txt") None false example_cached =
    (Raised (FileNotFoundError "notes.txt"),
     snd (getContents (Some "develop") example_cached)).
Proof.
  assert (Hover : upload_image_override "notes.txt"
                    (default (__default_branch (self example_cached)) None)
                    example_cached = (Returned "develop", example_cached))
    by (vm_compute; reflexivity).
  assert (Hcache : __branches (self example_cached)
                   = [JStr "develop"; JStr "figures"])
    by (vm_compute; reflexivity).
  assert (Hdisk : disk example_cached !! "notes.txt" = None)
    by (vm_compute; reflexivity).
  assert (Hget : getContents (Some "develop") example_cached =
                 (Returned {[ KStr "chart.png" := JStr "a1";
                              KStr "README.md" := JStr "b2" ]},
                  snd (getContents (Some "develop") example_cached)))
    by (vm_compute; reflexivity).
  assert (Hwiki : __use_wiki (self example_cached) = false)
    by (vm_compute; reflexivity).
  assert (Hin : JStr "develop" ∈ __branches (self example_cached))
    by (rewrite Hcache; apply list_elem_of_here).
  split; [exact Hover|]. split; [exact Hdisk|].
  exact (proj1 (upload_missing_file (H := example_platform) example_cached
                  example_cached _ (One "notes.txt") "notes.txt" None "develop"
                  _ eq_refl Hover Hwiki Hin Hget Hdisk)).
Defined.

(** X17. In wiki mode no upload goes through: on a branch other than master
    the call prints that only master is possible and returns; on master it
    raises NameError, [getWikiRepo] naming an undefined [slef]. Either way
    nothing is sent, copied or pushed. *)
Theorem upload_wiki_never_uploads `{Platform} (w w1 : World)
    (file_arg : arg string) (file_name : string) (branch : option string)
    (use_wiki : bool) (target : string) :
  unwrapped file_arg = Returned file_name →
  upload_image_override file_name
    (default (__default_branch (self w)) branch) w = (Returned target, w1) →
  __use_wiki (self w1) || use_wiki = true →
  upload file_arg branch use_wiki w =
    if String.eqb target "master" then (Raised (NameError "slef"), w1)
    else (Returned (),
          set_stdout
            (stdout w1 ++
               [Text "Files can only be uploaded to the wiki repositories master branch"])
            w1).
Proof.
  intros Harg Hover Hwiki.
  rewrite (upload_unfold _ _ _ _ _ Harg).
  rewrite (bind_returned _ _ _ _ _ Hover).
  rewrite (bind_returned get_self _ _ _ _ eq_refl).
  rewrite Hwiki. unfold upload_wiki.
  rewrite (bind_returned get_self _ _ _ _ eq_refl).
  by destruct (String.eqb target "master").
Qed.

Lemma upload_wiki_never_uploads_witness :
  upload_image_override "notes.md" "master" example_cached
    = (Returned "master", example_cached) ∧
  upload (H := example_platform) (One "notes.md") (Some "master") true
      example_cached = (Raised (NameError "slef"), example_cached).
Proof.
  assert (Hover : upload_image_override "notes.md"
                    (default (__default_branch (self example_cached))
                       (Some "master")) example_cached
                  = (Returned "master", example_cached))
    by (vm_compute; reflexivity).
  split; [exact Hover|].
  exact (upload_wiki_never_uploads (H := example_platform) example_cached
           example_cached (One "notes.md") "notes.md" (Some "master") true
           "master" eq_refl Hover (orb_true_r _)).
Defined.

Lemma wiki_flag_upload_wiki `{Platform} file_name branch :
  preserves (fun w => __use_wiki (self w)) (upload_wiki file_name branch).
Proof. unfold upload_wiki, getWikiRepo. frame. Qed.

Lemma wiki_flag_upload_repo `{Platform} file_name branch :
  preserves (fun w => __use_wiki (self w)) (upload_repo file_name branch).
Proof. unfold upload_repo. frame. Qed.

(** X18. Once the image override has redirected an upload, the wiki default of
    the client is off when the call ends, however it ends: a client
    initialised for the wiki uploads to the repository from then on. *)
Theorem redirect_turns_wiki_off `{Platform} (w : World) (file_arg : arg string)
    (file_name : string) (branch : option string) (use_wiki : bool) :
  unwrapped file_arg = Returned file_name →
  endswith_any (lower file_name) image_suffixes = true →
  __ignore (self w) = false →
  default (__default_branch (self w)) branch ≠ __default_image_branch (self w) →
  __use_wiki (self (snd (upload file_arg branch use_wiki w))) = false.
Proof.
  intros Harg Himg Hign Hne.
  rewrite (upload_unfold _ _ _ _ _ Harg).
  rewrite (bind_returned _ _ _ _ _
             (upload_image_override_redirect w file_name _ Himg Hign Hne)).
  rewrite (bind_returned get_self _ _ _ _ eq_refl).
  destruct (__use_wiki (self (image_redirected w)) || use_wiki).
  - by rewrite (wiki_flag_upload_wiki file_name _ (image_redirected w)).
  - by rewrite (wiki_flag_upload_repo file_name _ (image_redirected w)).
Qed.

Lemma redirect_turns_wiki_off_witness :
  __use_wiki (self example_wiki) = true ∧
  __use_wiki (self (snd (upload (H := example_platform) (One "chart.png")
                           (Some "develop") false example_wiki))) = false.
Proof.
  split; [vm_compute; reflexivity|].
  apply (redirect_turns_wiki_off (H := example_platform) example_wiki
           (One "chart.png") "chart.png" (Some "develop") false eq_refl).
  - reflexivity.
  - vm_compute; reflexivity.
  - vm_compute; discriminate.
Defined.

Lemma getContents_sends_once_witness :
  github example_rejected
      (sent example_rejected ++ [contents_request (self example_rejected) "develop"])
    = Body (JDict {[ "message" := JStr "Bad credentials" ]}) ∧
  fst (getContents None example_rejected) = Returned ∅.
Proof.
  split; [reflexivity|].
  apply (proj2 (getContents_sends_once example_rejected None)
           (JDict {[ "message" := JStr "Bad credentials" ]}) eq_refl).
  intros items. discriminate.
Defined.

(** X19. [getStatus] needs CI_COMMIT_SHA to be set but does not use its value:
    whatever the commit, the one request sent is the GET of the statuses of
    the reference Add_to_dev, and the call returns the parsed answer. *)
Theorem getStatus_ignores_commit (w : World) (commit_sha : string) :
  let r := status_request (self w) in
  let w' := set_sent (sent w ++ [r]) w in
  environ w !! "CI_COMMIT_SHA" = Some commit_sha →
  getStatus w =
    match github w (sent w ++ [r]) with
    | Body j => (Returned j, w')
    | NotJson => (Raised JSONDecodeError, w')
    | NoAnswer => (Raised PycurlError, w')
    end.
Proof.
  intros r w' Henv. unfold getStatus.
  rewrite (bind_returned (os_getenv _) _ w (Some commit_sha) w)
    by (unfold os_getenv; by rewrite Henv).
  rewrite (bind_returned get_self _ w (self w) w eq_refl).
  fold (status_request (self w)). fold r.
  destruct (github w (sent w ++ [r])) eqn:Hanswer.
  - rewrite (bind_returned _ _ _ _ _
               (perform_answered r w ltac:(by rewrite Hanswer))).
    by rewrite Hanswer.
  - rewrite (bind_returned _ _ _ _ _
               (perform_answered r w ltac:(by rewrite Hanswer))).
    by rewrite Hanswer.
  - by rewrite (bind_raised _ _ _ _ _ (perform_unanswered r w Hanswer)).
Qed.

Lemma getStatus_ignores_commit_witness :
  environ example_ci !! "CI_COMMIT_SHA" = Some "c0ffee" ∧
  getStatus example_ci =
    (Returned (JDict ∅),
     set_sent (sent example_ci ++ [status_request (self example_ci)]) example_ci).
Proof.
  assert (Henv : environ example_ci !! "CI_COMMIT_SHA" = Some "c0ffee")
    by (vm_compute; reflexivity).
  split; [exact Henv|].
  rewrite (getStatus_ignores_commit example_ci "c0ffee" Henv).
  vm_compute. reflexivity.
Defined.

(** X20. [postStatus] with a valid state and a commit, given or else taken
    from CI_COMMIT_SHA: the one request sent is the POST of the state and the
    context to the statuses of that commit; a JSON answer is printed and the
    call returns, an answer that is not JSON raises after the status was
    posted. A commit given in the call is used even when the variable is
    set. *)
Theorem postStatus_posts (w : World) (state : string)
    (commit_sha : option string) (sha : string) :
  let r := post_status_request (self w) state sha in
  let w' := set_sent (sent w ++ [r]) w in
  state ∈ ["pending"; "failed"; "error"; "success"] →
  commit_sha = Some sha
  ∨ commit_sha = None ∧ environ w !! "CI_COMMIT_SHA" = Some sha →
  postStatus state commit_sha w =
    match github w (sent w ++ [r]) with
    | Body j => (Returned (), set_stdout (stdout w ++ [Pretty j]) w')
    | NotJson => (Raised JSONDecodeError, w')
    | NoAnswer => (Raised PycurlError, w')
    end.
Proof.
  intros r w' Hstate Hsha. unfold postStatus.
  rewrite bool_decide_true by done. cbn [negb].
  assert (Hresolve :
    match commit_sha with
    | None => os_getenv "CI_COMMIT_SHA"
    | Some _ => return_ commit_sha
    end w = (Returned (Some sha), w)).
  { destruct Hsha as [->|[-> Henv]]; [done|].
    unfold os_getenv. by rewrite Henv. }
  rewrite (bind_returned _ _ _ _ _ Hresolve).
  rewrite (bind_returned get_self _ w (self w) w eq_refl).
  fold (post_status_request (self w) state sha). fold r.
  destruct (github w (sent w ++ [r])) eqn:Hanswer.
  - rewrite (bind_returned _ _ _ _ _
               (perform_answered r w ltac:(by rewrite Hanswer))).
    by rewrite Hanswer.
  - rewrite (bind_returned _ _ _ _ _
               (perform_answered r w ltac:(by rewrite Hanswer))).
    by rewrite Hanswer.
  - by rewrite (bind_raised _ _ _ _ _ (perform_unanswered r w Hanswer)).
Qed.

Lemma postStatus_posts_witness :
  ("success" ∈ ["pending"; "failed"; "error"; "success"]) ∧
  environ example_ci !! "CI_COMMIT_SHA" = Some "c0ffee" ∧
  sent (snd (postStatus "success" (Some "abc123") example_ci)) =
    sent example_ci ++ [post_status_request (self example_ci) "success" "abc123"].
Proof.
  assert (Hstate : "success" ∈ ["pending"; "failed"; "error"; "success"])
    by (do 3 apply list_elem_of_further; apply list_elem_of_here).
  split; [exact Hstate|]. split; [vm_compute; reflexivity|].
  rewrite (postStatus_posts example_ci "success" (Some "abc123") "abc123"
             Hstate (or_introl eq_refl)).
  vm_compute. reflexivity.
Defined.

(** X21. [__generateInstallationId] on an answer that is an installation, or
    a list whose first item is one, with a string under "html_url": the
    installation id becomes what follows the last slash of that URL; one GET
    with the signed credential as bearer is sent and nothing else changes. *)
Theorem __generateInstallationId_first (w : World) (j : json)
    (fields : gmap string json) (html_url : string) :
  let r := installations_request (self w) in
  github w (sent w ++ [r]) = Body j →
  (j = JDict fields ∨ ∃ others, j = JList (JDict fields :: others)) →
  fields !! "html_url" = Some (JStr html_url) →
  __generateInstallationId w =
    (Returned (),
     set_self (set__install_id (after_last_slash html_url) (self w))
       (set_sent (sent w ++ [r]) w)).
Proof.
  intros r Hanswer Hj Hurl. unfold __generateInstallationId.
  rewrite (bind_returned get_self _ w (self w) w eq_refl).
  fold (installations_request (self w)). fold r.
  rewrite (bind_returned _ _ _ _ _
             (perform_answered r w ltac:(by rewrite Hanswer))).
  rewrite Hanswer.
  rewrite (bind_returned (json_loads (Body j)) _ _ j _ eq_refl).
  rewrite (bind_returned (first_if_list j) _ _ (JDict fields) _)
    by (destruct Hj as [->|[others ->]]; done).
  rewrite (bind_returned _ _ _ _ _ (getitem_dict _ _ _ _ Hurl)).
  done.
Qed.

Lemma __generateInstallationId_first_witness :
  github example_ci (sent example_ci ++ [installations_request (self example_ci)])
    = Body (JList [JDict {[ "html_url" :=
        JStr "https://github.com/organizations/lanl/settings/installations/42" ]}]) ∧
  __install_id (self (snd (__generateInstallationId example_ci))) = "42".
Proof.
  assert (Hanswer :
    github example_ci (sent example_ci ++ [installations_request (self example_ci)])
    = Body (JList [JDict {[ "html_url" :=
        JStr "https://github.com/organizations/lanl/settings/installations/42" ]}]))
    by (vm_compute; reflexivity).
  split; [exact Hanswer|].
  by rewrite (__generateInstallationId_first example_ci _
                {[ "html_url" :=
                   JStr "https://github.com/organizations/lanl/settings/installations/42" ]}
                _ Hanswer (or_intror (ex_intro _ [] eq_refl)) eq_refl).
Defined.

(** X22. [__fillTree] never fills anything: on a node without directories it
    returns at once, and on a node with directories it sends the request for
    the first of them and raises, NameError if the request was answered. The
    path in that request follows "/contents/" directly. *)
Theorem __fillTree_stops_at_first `{Platform} (w : World) (current_node : Node)
    (branch : string) :
  match getNodes current_node with
  | [] => __fillTree current_node branch w = (Returned (), w)
  | node :: _ =>
      let r := {| url := __repo_url (self w) +:+ "/contents/" +:+ getPath node;
                  method := GET; httpheader := __header (self w);
                  readdata := Some (JDict {[ "branch" := JStr branch ]});
                  postfields := None; verbose := false |} in
      __fillTree current_node branch w =
        (match github w (sent w ++ [r]) with
         | NoAnswer => Raised PycurlError
         | _ => Raised (NameError "getvalue")
         end, set_sent (sent w ++ [r]) w)
  end.
Proof.
  unfold __fillTree. destruct (getNodes current_node) as [|node rest]; [done|].
  cbv zeta. simpl for_each.
  unfold mbind, M_bind, get_self, perform, raise. simpl.
  by destruct (github w _).
Qed.

(** X23. None of the public methods changes what [initialize] has set up
    other than the cache of branches and the wiki default: the identity of
    the application, its settings, its credentials and its tree, the
    environment, the files on disk and the clock are after the call what they
    were before it, however the call ends. In particular the tree of the
    client is never filled. *)
Theorem methods_keep_fixed_part `{Platform} (w : World) :
  fixed_part (snd (getBranches w)) = fixed_part w
  ∧ (∀ branch, fixed_part (snd (branchExist branch w)) = fixed_part w)
  ∧ fixed_part (snd (refreshBranchCache w)) = fixed_part w
  ∧ (∀ branch fork, fixed_part (snd (createBranch branch fork w)) = fixed_part w)
  ∧ (∀ branch, fixed_part (snd (getContents branch w)) = fixed_part w)
  ∧ (∀ file_name branch use_wiki,
       fixed_part (snd (upload file_name branch use_wiki w)) = fixed_part w)
  ∧ (∀ branch access_token,
       fixed_part (snd (getBranchTree branch access_token w)) = fixed_part w)
  ∧ (∀ state commit_sha,
       fixed_part (snd (postStatus state commit_sha w)) = fixed_part w)
  ∧ fixed_part (snd (getStatus w)) = fixed_part w.
Proof.
  repeat split; intros;
    first [ apply fixed_getBranches | apply fixed_branchExist
          | apply fixed___getBranches | apply fixed_createBranch
          | apply fixed_getContents | apply fixed_upload
          | apply fixed_postStatus | apply fixed_getStatus | reflexivity ].
Qed.

Lemma preserves_utcnow {X : Type} (obs : World → X) :
  (∀ w n, obs (set_clock_reads n w) = obs w) → preserves obs utcnow.
Proof. intros Hobs w. apply Hobs. Qed.

Lemma settings___generateJWT `{Platform} pem_file :
  preserves settings (__generateJWT pem_file).
Proof.
  unfold __generateJWT, pem_parse_file.
  repeat first [ apply preserves_utcnow; done | frame_step
               | progress case_match ].
Qed.

Lemma settings___generateInstallationId :
  preserves settings __generateInstallationId.
Proof. unfold __generateInstallationId. frame. Qed.

Lemma settings___generateAccessToken :
  preserves settings __generateAccessToken.
Proof. unfold __generateAccessToken. frame. Qed.

Lemma bind_assign {V B : Type} (setter : V → App → App) (v : V)
    (k : unit → M B) w :
  (assign setter v ≫= k) w = k () (set_self (setter v (self w)) w).
Proof. reflexivity. Qed.

Lemma unwrap_returned {A : Type} (x : arg A) (a : A) w :
  unwrapped x = Returned a → unwrap x w = (Returned a, w).
Proof. intros Hx. unfold unwrap, lift. by rewrite Hx. Qed.

Lemma rindex_none (s sub : string) :
  (∀ k, ¬ occurs_at k sub s) → rindex s sub = None.
Proof.
  intros Hnone. unfold rindex. pose proof (rindex_from_spec sub s 0) as Hspec.
  destruct (rindex_from 0 s sub) as [j|]; [|done].
  destruct Hspec as (k & _ & Hocc & _). by destruct (Hnone k).
Qed.

(** X24. When the name of the repository does not occur in the path of the
    directory of the script, [initialize] prints that the script must be run
    from within the repository and raises ValueError, before any credential
    is signed or any request sent. *)
Theorem initialize_outside_repository `{Platform} (w : World)
    (use_wiki ignore : bool) (pem_file : arg string) (create_branch : arg bool)
    (create : bool) :
  unwrapped create_branch = Returned create →
  (∀ k, ¬ occurs_at k (__repo_name (self w)) file_parent) →
  ∃ w', initialize use_wiki ignore pem_file create_branch w
          = (Raised ValueError, w')
        ∧ sent w' = sent w
        ∧ clock_reads w' = clock_reads w
        ∧ stdout w' =
            stdout w ++
              [Text (file_realpath +:+ " must be run from within the "
                       +:+ __repo_name (self w) +:+ " repository.")].
Proof.
  intros Hcreate Hnone. apply rindex_none in Hnone.
  unfold initialize.
  rewrite (bind_returned get_self _ w (self w) w eq_refl). cbv beta.
  rewrite !bind_assign.
  rewrite (bind_returned _ _ _ _ _ (unwrap_returned _ _ _ Hcreate)). cbv beta.
  rewrite !bind_assign.
  rewrite Hnone.
  eexists. split; [|split; [|split]].
  - erewrite bind_raised; [reflexivity|].
    by rewrite (bind_returned (print _) _ _ () _ eq_refl).
  - done.
  - done.
  - done.
Qed.

Lemma initialize_outside_repository_witness :
  unwrapped (One false) = Returned false ∧
  fst (initialize (H := example_elsewhere) false false (One "app.pem")
         (One false) example_start) = Raised ValueError ∧
  sent (snd (initialize (H := example_elsewhere) false false (One "app.pem")
               (One false) example_start)) = [].
Proof.
  assert (Hnone : ∀ k, ¬ occurs_at k (__repo_name (self example_start))
                          (file_parent (Platform := example_elsewhere))).
  { intros k Hk.
    pose proof (rindex_from_spec (__repo_name (self example_start))
                  (file_parent (Platform := example_elsewhere)) 0) as Hspec.
    vm_compute rindex_from in Hspec. by apply (Hspec k). }
  destruct (initialize_outside_repository (H := example_elsewhere)
              example_start false false (One "app.pem") (One false) false
              eq_refl Hnone) as (w' & Hinit & Hsent & _).
  split; [reflexivity|]. rewrite Hinit. split; [reflexivity|]. exact Hsent.
Defined.

(** X25. When the name of the repository occurs in the path of the script,
    [initialize] has, by the time it returns or raises in the handshake,
    set the client up: the flags given, the URL of the repository from user
    and name, "develop" and "figures" as default branches, an empty cache,
    the media type, an empty tree, and as home the path of the script cut
    one character after the last occurrence of the name of the repository;
    the identity given to the constructor is unchanged. *)
Theorem initialize_settings `{Platform} (w : World) (use_wiki ignore : bool)
    (pem_file : arg string) (create_branch : arg bool) (create : bool)
    (pem : string) (i : nat) :
  let a := self w in
  let w' := snd (initialize use_wiki ignore pem_file create_branch w) in
  let home := String.substring 0 (i + S (String.length (__repo_name a)))
                file_parent in
  unwrapped create_branch = Returned create →
  unwrapped pem_file = Returned pem →
  rindex file_parent (__repo_name a) = Some i →
  settings w' =
    (__app_id a, __name a, __user a, __repo_name a, ignore, use_wiki,
     "https://api.github.com/repos/" +:+ __user a +:+ "/" +:+ __repo_name a,
     create, "develop", "figures", [], ∅, "application/vnd.github.v3+json",
     Node_default, home,
     os_path_normpath (home +:+ "/../" +:+ __repo_name a +:+ ".wiki")).
Proof.
  intros a w' home Hcreate Hpem Hrindex. unfold w', initialize.
  rewrite (bind_returned get_self _ w (self w) w eq_refl). cbv beta.
  rewrite !bind_assign.
  rewrite (bind_returned _ _ _ _ _ (unwrap_returned _ _ _ Hcreate)). cbv beta.
  rewrite !bind_assign.
  fold a. rewrite Hrindex.
  rewrite !bind_assign.
  rewrite (bind_returned get_self _ _ _ _ eq_refl). cbv beta.
  rewrite !bind_assign.
  rewrite (bind_returned _ _ _ _ _ (unwrap_returned _ _ _ Hpem)). cbv beta.
  match goal with
  | |- settings (snd (?m ?w0)) = _ =>
      assert (Hkeep : preserves settings m);
      [|rewrite (Hkeep w0)]
  end.
  - apply preserves_bind; [apply settings___generateJWT|]. intros _.
    apply preserves_bind; [apply settings___generateInstallationId|]. intros _.
    apply settings___generateAccessToken.
  - done.
Qed.

Lemma initialize_settings_witness :
  rindex (file_parent (Platform := example_platform))
    (__repo_name (self example_start)) = Some 4%nat ∧
  settings (snd (initialize (H := example_platform) false false
                   (One "app.pem") (One false) example_start)) =
    ("7", "parthenon-metrics", "lanl", "parthenon", false, false,
     "https://api.github.com/repos/lanl/parthenon", false, "develop",
     "figures", [], ∅, "application/vnd.github.v3+json", Node_default,
     "/ci/parthenon/", "/ci/parthenon//../parthenon.wiki").
Proof.
  assert (Hrindex : rindex (file_parent (Platform := example_platform))
                      (__repo_name (self example_start)) = Some 4%nat)
    by reflexivity.
  split; [exact Hrindex|].
  exact (initialize_settings (H := example_platform) example_start false
           false (One "app.pem") (One false) false "app.pem" 4
           eq_refl eq_refl Hrindex).
Defined.

Lemma createBranch_created w branch fork sha :
  JStr branch ∉ __branches (self w) →
  JStr fork ∈ __branches (self w) →
  __branch_current_commit_sha (self w) !! KStr fork = Some sha →
  github w (sent w ++ [ref_request (self w) branch sha]) ≠ NoAnswer →
  createBranch branch (Some fork) w =
    (Returned (), set_sent (sent w ++ [ref_request (self w) branch sha]) w).
Proof.
  intros Hnot Hin Hsha Hanswer.
  assert (Hne : __branches (self w) ≠ []).
  { intros Hnil. rewrite Hnil in Hin. by apply elem_of_nil in Hin. }
  unfold createBranch.
  rewrite (bind_returned get_self _ w (self w) w eq_refl). simpl default.
  rewrite (bind_returned _ _ _ _ _ (branchExist_absent branch w Hne Hnot)).
  rewrite (bind_returned _ _ _ _ _ (branchExist_member fork w Hin)). simpl.
  rewrite (bind_returned get_self _ w (self w) w eq_refl). rewrite Hsha.
  rewrite (bind_returned (return_ sha) _ w sha w eq_refl).
  fold (ref_request (self w) branch sha).
  by rewrite (bind_returned _ _ _ _ _ (perform_answered _ w Hanswer)).
Qed.

(** X26. With the create flag on, an upload outside wiki mode to a branch that
    is not in the cache first creates the branch from the default branch, at
    the sha the cache has for it, then reads the listing of the new branch
    and commits the file: three requests, POST, GET and PUT, in that order. *)
Theorem upload_creates_branch `{Platform} (w w1 w2 : World)
    (file_arg : arg string) (file_name : string) (branch : option string)
    (target : string) (sha : json) (contents : gmap pykey json)
    (data : list Byte.byte) :
  let a := self w1 in
  let created := set_sent (sent w1 ++ [ref_request a target sha]) w1 in
  unwrapped file_arg = Returned file_name →
  upload_image_override file_name
    (default (__default_branch (self w)) branch) w = (Returned target, w1) →
  __use_wiki a = false →
  __create_branch a = true →
  JStr target ∉ __branches a →
  JStr (__default_branch a) ∈ __branches a →
  __branch_current_commit_sha a !! KStr (__default_branch a) = Some sha →
  github w1 (sent w1 ++ [ref_request a target sha]) ≠ NoAnswer →
  getContents (Some target) created = (Returned contents, w2) →
  disk w1 !! file_name = Some data →
  ∃ res,
    upload file_arg branch false w =
      (res, set_sent
              (sent w1 ++ [ref_request a target sha;
                           contents_request a target;
                           commit_request a file_name target contents data])
              w1).
Proof.
  intros a created Harg Hover Hwiki Hcreate Hnot Hin Hsha Hanswer Hget Hdisk.
  pose proof (getContents_sent (Some target) created) as Hw2.
  rewrite Hget in Hw2. simpl in Hw2. fold a in Hw2.
  rewrite (upload_unfold _ _ _ _ _ Harg).
  rewrite (bind_returned _ _ _ _ _ Hover).
  rewrite (bind_returned get_self _ _ _ _ eq_refl). fold a.
  rewrite Hwiki. simpl. unfold upload_repo.
  rewrite (bind_returned get_self _ _ _ _ eq_refl). fold a. rewrite Hcreate.
  assert (Hcreated : createBranch target None w1 = (Returned (), created)).
  { unfold createBranch.
    rewrite (bind_returned get_self _ w1 (self w1) w1 eq_refl).
    pose proof (createBranch_created w1 target (__default_branch a) sha
                  Hnot Hin Hsha Hanswer) as Hc.
    unfold createBranch in Hc.
    rewrite (bind_returned get_self _ w1 (self w1) w1 eq_refl) in Hc.
    exact Hc. }
  rewrite (bind_returned _ _ _ _ _ Hcreated).
  rewrite (bind_returned _ _ _ _ _ Hget).
  assert (Hread : read_file file_name w2 = (Returned data, w2)).
  { unfold read_file. rewrite Hw2. simpl. by rewrite Hdisk. }
  rewrite (bind_returned _ _ _ _ _ Hread).
  rewrite (bind_returned get_self _ w2 (self w2) w2 eq_refl).
  assert (Hself : self w2 = a) by by rewrite Hw2.
  rewrite Hself.
  fold (commit_request a file_name target contents data).
  unfold mbind, M_bind, perform. simpl sent.
  assert (Hworld :
    set_sent (sent w2 ++ [commit_request a file_name target contents data]) w2
    = set_sent
        (sent w1 ++ [ref_request a target sha; contents_request a target;
                     commit_request a file_name target contents data]) w1).
  { rewrite Hw2. unfold set_sent, created. simpl.
    by rewrite <- !app_assoc. }
  rewrite Hworld.
  destruct (github w2 _); eauto.
Qed.

Lemma upload_creates_branch_witness :
  upload_image_override "README.md" "release" example_create
    = (Returned "release", example_create) ∧
  __create_branch (self example_create) = true ∧
  ∃ res,
    upload (H := example_platform) (One "README.md") (Some "release") false
        example_create =
      (res, set_sent
              (sent example_create ++
                 [ref_request (self example_create) "release" (JStr "c0ffee");
                  contents_request (self example_create) "release";
                  commit_request (H := example_platform) (self example_create)
                    "README.md" "release" ∅ [Byte.x68; Byte.x69; Byte.x0a]])
              example_create).
Proof.
  assert (Hover : upload_image_override "README.md"
                    (default (__default_branch (self example_create))
                       (Some "release")) example_create
                  = (Returned "release", example_create))
    by (vm_compute; reflexivity).
  assert (Hcache : __branches (self example_create)
                   = [JStr "develop"; JStr "figures"])
    by (vm_compute; reflexivity).
  assert (Hcreate : __create_branch (self example_create) = true)
    by (vm_compute; reflexivity).
  assert (Hnot : JStr "release" ∉ __branches (self example_create)).
  { rewrite Hcache. intros Hx.
    repeat (apply elem_of_cons in Hx as [Hx|Hx]; [discriminate|]).
    by apply elem_of_nil in Hx. }
  assert (Hin : JStr (__default_branch (self example_create))
                ∈ __branches (self example_create))
    by (rewrite Hcache; apply list_elem_of_here).
  assert (Hsha : __branch_current_commit_sha (self example_create)
                   !! KStr (__default_branch (self example_create))
                 = Some (JStr "c0ffee")) by (vm_compute; reflexivity).
  assert (Hanswer :
    github example_create
      (sent example_create
         ++ [ref_request (self example_create) "release" (JStr "c0ffee")])
    ≠ NoAnswer) by (vm_compute; discriminate).
  assert (Hget :
    getContents (Some "release")
      (set_sent (sent example_create
                   ++ [ref_request (self example_create) "release"
                         (JStr "c0ffee")]) example_create)
    = (Returned ∅,
       snd (getContents (Some "release")
              (set_sent (sent example_create
                           ++ [ref_request (self example_create) "release"
                                 (JStr "c0ffee")]) example_create))))
    by (vm_compute; reflexivity).
  assert (Hdisk : disk example_create !! "README.md"
                  = Some [Byte.x68; Byte.x69; Byte.x0a])
    by (vm_compute; reflexivity).
  assert (Hwiki : __use_wiki (self example_create) = false)
    by (vm_compute; reflexivity).
  split; [exact Hover|]. split; [exact Hcreate|].
  exact (upload_creates_branch (H := example_platform) example_create
           example_create _ (One "README.md") "README.md" (Some "release")
           "release" (JStr "c0ffee") ∅ _ eq_refl Hover Hwiki Hcreate Hnot Hin
           Hsha Hanswer Hget Hdisk).
Defined.

(* --------------------------------------------------------------------- *)
(** ** The commit request of an upload                                     *)
(* --------------------------------------------------------------------- *)

Lemma sender_branchExist branch :
  preserves (fun w => (__name (self w), __repo_url (self w), __header (self w),
                       disk w)) (branchExist branch).
Proof. unfold branchExist. frame. Qed.

(** What a repository upload does once [branchExist] has found its branch,
    the listing has been read and the file is on disk. *)
Lemma upload_repo_existing `{Platform} w w' w2 file_name branch contents data :
  branchExist branch w = (Returned true, w') →
  getContents (Some branch) w' = (Returned contents, w2) →
  disk w !! file_name = Some data →
  ∃ res,
    upload_repo file_name branch w =
      (res, set_sent
              (sent w2 ++
                 [commit_request (self w') file_name branch contents data]) w2)
    ∧ __name (self w') = __name (self w)
    ∧ __repo_url (self w') = __repo_url (self w).
Proof.
  intros Hexist Hget Hdisk.
  pose proof (sender_branchExist branch w) as Hsame.
  rewrite Hexist in Hsame. simpl in Hsame.
  injection Hsame as Hname Hurl Hheader Hdisk'.
  pose proof (getContents_sent (Some branch) w') as Hw2.
  rewrite Hget in Hw2. simpl in Hw2.
  assert (Hcheck :
    (if __create_branch (self w) then createBranch branch None
     else present ← branchExist branch;
          if negb present
          then raise (Exception ("branch: " +:+ branch
                                   +:+ " does not exist in repository."))
          else return_ ()) w = (Returned (), w')).
  { destruct (__create_branch (self w)).
    - unfold createBranch.
      rewrite (bind_returned get_self _ w (self w) w eq_refl).
      by rewrite (bind_returned _ _ _ _ _ Hexist).
    - by rewrite (bind_returned _ _ _ _ _ Hexist). }
  assert (Hread : read_file file_name w2 = (Returned data, w2)).
  { unfold read_file. rewrite Hw2. simpl. by rewrite Hdisk', Hdisk. }
  assert (Hself : self w2 = self w') by by rewrite Hw2.
  unfold upload_repo.
  rewrite (bind_returned get_self _ w (self w) w eq_refl).
  rewrite (bind_returned _ _ _ _ _ Hcheck).
  rewrite (bind_returned _ _ _ _ _ Hget).
  rewrite (bind_returned _ _ _ _ _ Hread).
  rewrite (bind_returned get_self _ w2 (self w2) w2 eq_refl).
  rewrite Hself.
  fold (commit_request (self w') file_name branch contents data).
  unfold mbind, M_bind, perform.
  destruct (github w2 _); simpl; eauto.
Qed.

(** C2, amended. Let [target] be the branch the image override leaves the
    upload on. For an upload outside wiki mode whose target exists, that is
    for which [branchExist(target)] answers yes, from the cache or after the
    live query that fills an empty cache, and whose file is on disk: the call
    sends, after the request of [getContents(target)], one PUT request; when
    the file name is a key of the listing of [target], its message is "<app>
    overwriting file <name>" and its sha is the one of the listing; when it
    is not, its message is "<app> uploading file <name>" and it has no
    sha. *)
Theorem upload_commit_request `{Platform} (w w1 w1' w2 : World)
    (file_arg : arg string) (file_name : string) (branch : option string)
    (target : string) (contents : gmap pykey json) (data : list Byte.byte) :
  unwrapped file_arg = Returned file_name →
  upload_image_override file_name
    (default (__default_branch (self w)) branch) w = (Returned target, w1) →
  __use_wiki (self w1) = false →
  branchExist target w1 = (Returned true, w1') →
  getContents (Some target) w1' = (Returned contents, w2) →
  disk w1 !! file_name = Some data →
  ∃ res w3 r body,
    upload file_arg branch false w = (res, w3)
    ∧ sent w3 = sent w2 ++ [r]
    ∧ method r = PUT
    ∧ url r = __repo_url (self w1) +:+ "/contents/" +:+ file_name
    ∧ readdata r = Some (JDict body)
    ∧ body !! "branch" = Some (JStr target)
    ∧ match contents !! KStr file_name with
      | Some sha =>
          body !! "message" =
            Some (JStr (__name (self w1) +:+ " overwriting file " +:+ file_name))
          ∧ body !! "sha" = Some sha
      | None =>
          body !! "message" =
            Some (JStr (__name (self w1) +:+ " uploading file " +:+ file_name))
          ∧ body !! "sha" = None
      end.
Proof.
  intros Harg Hover Hwiki Hexist Hget Hdisk.
  destruct (upload_repo_existing w1 w1' w2 file_name target contents data
              Hexist Hget Hdisk) as (res & Hrepo & Hname & Hurl).
  eexists res, _, _, _. split.
  - rewrite (upload_unfold _ _ _ _ _ Harg).
    rewrite (bind_returned _ _ _ _ _ Hover).
    rewrite (bind_returned get_self _ _ _ _ eq_refl).
    rewrite Hwiki. simpl. exact Hrepo.
  - split; [reflexivity|]. split; [reflexivity|].
    split; [unfold commit_request; simpl; by rewrite Hurl|].
    split; [reflexivity|]. split.
    + unfold upload_custom_data.
      destruct (contents !! KStr file_name); by simplify_map_eq.
    + rewrite <- Hname. apply upload_custom_data_fields.
Qed.

Lemma upload_commit_request_witness :
  unwrapped (One "README.md") = Returned "README.md" ∧
  upload_image_override "README.md" "develop" example_ready =
    (Returned "develop", example_ready) ∧
  __use_wiki (self example_ready) = false ∧
  __branches (self example_ready) = [] ∧
  branchExist "develop" example_ready = (Returned true, example_cached) ∧
  disk example_ready !! "README.md" = Some [Byte.x68; Byte.x69; Byte.x0a] ∧
  ∃ res w3 r body,
    upload (H := example_platform) (One "README.md") None false example_ready
      = (res, w3)
    ∧ method r = PUT ∧ last (sent w3) = Some r
    ∧ readdata r = Some (JDict body)
    ∧ body !! "message" =
        Some (JStr "parthenon-metrics overwriting file README.md")
    ∧ body !! "sha" = Some (JStr "b2").
Proof.
  assert (Hover : upload_image_override "README.md"
                    (default (__default_branch (self example_ready)) None)
                    example_ready = (Returned "develop", example_ready))
    by (vm_compute; reflexivity).
  assert (Hwiki : __use_wiki (self example_ready) = false)
    by (vm_compute; reflexivity).
  assert (Hexist : branchExist "develop" example_ready
                   = (Returned true, example_cached))
    by (vm_compute; reflexivity).
  assert (Hdisk : disk example_ready !! "README.md"
                  = Some [Byte.x68; Byte.x69; Byte.x0a])
    by (vm_compute; reflexivity).
  assert (Hget : getContents (Some "develop") example_cached =
                 (Returned {[ KStr "chart.png" := JStr "a1";
                              KStr "README.md" := JStr "b2" ]},
                  snd (getContents (Some "develop") example_cached)))
    by (vm_compute; reflexivity).
  split; [reflexivity|]. split; [exact Hover|]. split; [exact Hwiki|].
  split; [vm_compute; reflexivity|]. split; [exact Hexist|].
  split; [exact Hdisk|].
  destruct (upload_commit_request (H := example_platform) example_ready
              example_ready example_cached _ (One "README.md") "README.md"
              None "develop" _ _ eq_refl Hover Hwiki Hexist Hget Hdisk)
    as (res & w3 & r & body & Hup & Hsent & Hm & _ & Hread & _ & Hmsg & Hsha).
  exists res, w3, r, body.
  split; [exact Hup|]. split; [exact Hm|].
  split; [rewrite Hsent; apply last_snoc|].
  split; [exact Hread|]. split; [exact Hmsg | exact Hsha].
Defined.
